(** * Windows container configuration of the kubelet runtime

    A shallow embedding of
    [pkg/kubelet/kuberuntime/kuberuntime_container_windows.go]:
    the function [generateWindowsContainerConfig] and the data it reads and
    writes, followed by the properties of the CPU controls and of the
    security context that it computes.

    Go's [int64] is a [Z] together with its two's-complement wrap-around,
    a division by zero is a run-time panic, the [error] result and the
    [klog] warnings are threaded through a small monad. *)

From Stdlib Require Import ZArith Lia Bool List String.
Import ListNotations.
Local Open Scope Z_scope.

(** ** Go's [int64] *)

Module Int64.

Definition half_modulus : Z := Eval cbv in 2 ^ 63.
Definition modulus : Z := Eval cbv in 2 ^ 64.
Definition min_signed : Z := Eval cbv in - 2 ^ 63.
Definition max_signed : Z := Eval cbv in 2 ^ 63 - 1.

Definition in_range (z : Z) : Prop := min_signed <= z <= max_signed.

(** The value an [int64] holds after an operation whose exact result
    is [z]. *)
Definition wrap (z : Z) : Z := (z + half_modulus) mod modulus - half_modulus.

Definition add (a b : Z) : Z := wrap (a + b).
Definition mul (a b : Z) : Z := wrap (a * b).

(** [a / b] for [b <> 0]: the quotient truncated toward zero; the one
    overflowing case, [min_signed / -1], wraps back to [min_signed]. *)
Definition quot (a b : Z) : Z := wrap (Z.quot a b).

End Int64.

(** ** Results, errors, panics and log output *)

(** [fmt.Errorf("run as uid (%d) is not supported on Windows", uid)], the
    only error value the file builds. *)
Inductive error : Type :=
| ErrRunAsUidNotSupported (uid : Z).

Inductive panic : Type :=
| IntegerDivideByZero.

(** The three [klog.Warningf] messages of the precedence step. *)
Inductive Warning : Type :=
| CPUCountOverCPUShares
| CPUCountOverCPUMaximum
| CPUSharesOverCPUMaximum.

Inductive outcome (A : Type) : Type :=
| Return (a : A)
| Error (e : error)
| Panic (p : panic).

Arguments Return {A} a.
Arguments Error {A} e.
Arguments Panic {A} p.

(** A computation takes the warnings logged so far and gives its outcome
    with the warnings logged when it stopped. *)
Definition M (A : Type) : Type := list Warning -> outcome A * list Warning.

Definition ret {A : Type} (a : A) : M A := fun log => (Return a, log).

Definition bind {A B : Type} (m : M A) (k : A -> M B) : M B :=
  fun log =>
    match m log with
    | (Return a, log') => k a log'
    | (Error e, log') => (Error e, log')
    | (Panic p, log') => (Panic p, log')
    end.

Definition Errorf {A : Type} (e : error) : M A := fun log => (Error e, log).

Definition raise {A : Type} (p : panic) : M A := fun log => (Panic p, log).

Definition Warningf (w : Warning) : M unit := fun log => (Return tt, log ++ [w]).

Notation "x <- m ;; k" := (bind m (fun x => k))
  (at level 61, m at next level, right associativity).
Notation "' pat <- m ;; k" := (bind m (fun x => match x with pat => k end))
  (at level 61, pat pattern, m at next level, right associativity).

(** Integer division as Go evaluates it. *)
Definition div (a b : Z) : M Z :=
  if b =? 0 then raise IntegerDivideByZero else ret (Int64.quot a b).

(** ** The API objects the function reads *)

Module resource.

(** Modelled from the spec: the type [resource.Quantity] is not in the
    source file.  The spec's data model gives the CPU request and limit as
    integers of millicores and the memory limit as an integer of bytes,
    zero meaning unset.  The function reads a quantity through three
    methods, each kept here as what it returns: [IsZero], the test of line
    57; [MilliValue], an [int64]; and [Value], an [int64].  [IsZero] is a
    reading of its own and not a test on [MilliValue]: a quantity that is
    not zero can have a [MilliValue] of 0, when its count of thousandths
    does not fit [int64]; only a zero quantity is sure to have none. *)
Record Quantity : Type := mkQuantity {
  IsZero : bool;
  MilliValue : Z;
  Value : Z;
  zero_has_no_millis : IsZero = true -> MilliValue = 0
}.

(** The quantity of [milli] thousandths, for a count that fits [int64]. *)
Definition quantityOf (milli value : Z) : Quantity :=
  mkQuantity (milli =? 0) milli value (fun H => proj1 (Z.eqb_eq milli 0) H).

(** A quantity that is not zero and whose [MilliValue] is 0. *)
Definition wrappedQuantity (value : Z) : Quantity :=
  mkQuantity false 0 value (fun _ => eq_refl).

End resource.

Module v1.

Record ResourceList : Type := mkResourceList {
  Cpu : resource.Quantity;
  Memory : resource.Quantity
}.

Record ResourceRequirements : Type := mkResourceRequirements {
  Limits : ResourceList;
  Requests : ResourceList
}.

Record WindowsSecurityContextOptions : Type := mkWindowsOptions {
  GMSACredentialSpec : option string;
  RunAsUserName : option string
}.

Record SecurityContext : Type := mkSecurityContext {
  WindowsOptions : option WindowsSecurityContextOptions;
  RunAsUser : option Z
}.

Record Container : Type := mkContainer {
  Name : string;
  Resources : ResourceRequirements
}.

Record Pod : Type := mkPod {
  Annotations : list (string * string)
}.

End v1.

(** ** The configuration the function builds *)

Module runtimeapi.

Record WindowsContainerResources : Type := mkResources {
  CpuShares : Z;
  CpuCount : Z;
  CpuMaximum : Z;
  MemoryLimitInBytes : Z
}.

Record WindowsContainerSecurityContext : Type := mkSecurityContext {
  RunAsUsername : string;
  CredentialSpec : string
}.

Record WindowsContainerConfig : Type := mkConfig {
  Resources : WindowsContainerResources;
  SecurityContext : WindowsContainerSecurityContext
}.

(** [runtimeapi.ContainerConfig]: the field [Windows], a pointer that may be
    nil, and the fields this file never touches, kept together as
    [OtherFields]. *)
Record ContainerConfig (Other : Type) : Type := mkContainerConfig {
  OtherFields : Other;
  Windows : option WindowsContainerConfig
}.

Arguments mkContainerConfig {Other} _ _.
Arguments OtherFields {Other} _.
Arguments Windows {Other} _.

Definition setWindows {Other : Type} (v : WindowsContainerConfig)
    (c : ContainerConfig Other) : ContainerConfig Other :=
  mkContainerConfig (OtherFields c) (Some v).

(** Assignments to one field. *)
Definition setCpuShares (v : Z) (r : WindowsContainerResources) :=
  mkResources v (CpuCount r) (CpuMaximum r) (MemoryLimitInBytes r).
Definition setCpuCount (v : Z) (r : WindowsContainerResources) :=
  mkResources (CpuShares r) v (CpuMaximum r) (MemoryLimitInBytes r).
Definition setCpuMaximum (v : Z) (r : WindowsContainerResources) :=
  mkResources (CpuShares r) (CpuCount r) v (MemoryLimitInBytes r).
Definition setMemoryLimitInBytes (v : Z) (r : WindowsContainerResources) :=
  mkResources (CpuShares r) (CpuCount r) (CpuMaximum r) v.
Definition setRunAsUsername (v : string) (s : WindowsContainerSecurityContext) :=
  mkSecurityContext v (CredentialSpec s).
Definition setCredentialSpec (v : string) (s : WindowsContainerSecurityContext) :=
  mkSecurityContext (RunAsUsername s) v.

(** [&runtimeapi.WindowsContainerResources{}] and
    [&runtimeapi.WindowsContainerSecurityContext{}]. *)
Definition zeroResources : WindowsContainerResources := mkResources 0 0 0 0.
Definition zeroSecurityContext : WindowsContainerSecurityContext :=
  mkSecurityContext EmptyString EmptyString.

End runtimeapi.

Import resource.

(** ** What the function takes from outside the file *)

(** The host's logical CPU count [sysinfo.NumCPU()], the helper
    [milliCPUToShares], the test [kubeletapis.ShouldIsolatedByHyperV] on the
    pod's annotations, the merge
    [securitycontext.DetermineEffectiveSecurityContext] and the state of the
    [WindowsGMSA] feature gate. *)
Record Environment : Type := mkEnvironment {
  NumCPU : Z;
  milliCPUToShares : Z -> bool -> Z;
  ShouldIsolatedByHyperV : list (string * string) -> bool;
  DetermineEffectiveSecurityContext :
    v1.Pod -> v1.Container -> v1.SecurityContext;
  WindowsGMSA : bool
}.

(** ** [generateWindowsContainerConfig] *)

Section Kuberuntime.

Variable env : Environment.

(** Lines 62-70: the local [cpuMaximum] on reaching the clamp, with the
    resources as assigned so far. *)
Definition cpuMaximumBeforeClamp (cpuLimit : Quantity) (isolatedByHyperv : bool)
    (r : runtimeapi.WindowsContainerResources)
  : M (runtimeapi.WindowsContainerResources * Z) :=
  t <- div (Int64.mul 10000 (MilliValue cpuLimit)) (NumCPU env) ;;
  cpuMaximum <- div t 1000 ;;
  if isolatedByHyperv then
    cpuCount <- div (Int64.add (MilliValue cpuLimit) 999) 1000 ;;
    let r := runtimeapi.setCpuCount cpuCount r in
    if negb (cpuCount =? 0) then
      q <- div (MilliValue cpuLimit) cpuCount ;;
      cpuMaximum <- div (Int64.mul q 10000) 1000 ;;
      ret (r, cpuMaximum)
    else ret (r, cpuMaximum)
  else ret (r, cpuMaximum).

(** Lines 71-76: ensure cpuMaximum is in range [1, 10000]. *)
Definition clampCpuMaximum (cpuMaximum : Z) : Z :=
  if cpuMaximum <? 1 then 1
  else if 10000 <? cpuMaximum then 10000
  else cpuMaximum.

(** Lines 57-79. *)
Definition applyCpuLimit (cpuLimit : Quantity) (isolatedByHyperv : bool)
    (r : runtimeapi.WindowsContainerResources)
  : M runtimeapi.WindowsContainerResources :=
  if negb (IsZero cpuLimit) then
    '(r, cpuMaximum) <- cpuMaximumBeforeClamp cpuLimit isolatedByHyperv r ;;
    ret (runtimeapi.setCpuMaximum (clampCpuMaximum cpuMaximum) r)
  else ret r.

(** Lines 81-84: the local [cpuShares]. *)
Definition computeCpuShares (cpuRequest cpuLimit : Quantity)
    (isolatedByHyperv : bool) : Z :=
  let cpuShares := milliCPUToShares env (MilliValue cpuLimit) isolatedByHyperv in
  if cpuShares =? 0
  then milliCPUToShares env (MilliValue cpuRequest) isolatedByHyperv
  else cpuShares.

(** Lines 57-85: the three CPU controls as they stand when the precedence
    step is reached. *)
Definition cpuControlsBeforePrecedence (cpuRequest cpuLimit : Quantity)
    (isolatedByHyperv : bool) (r : runtimeapi.WindowsContainerResources)
  : M runtimeapi.WindowsContainerResources :=
  r <- applyCpuLimit cpuLimit isolatedByHyperv r ;;
  let cpuShares := computeCpuShares cpuRequest cpuLimit isolatedByHyperv in
  ret (runtimeapi.setCpuShares cpuShares r).

(** Lines 87-107: the processor resource controls are mutually exclusive on
    Windows Server Containers, the order of precedence is CPUCount first,
    then CPUShares, and CPUMaximum last. *)
Definition resolveMutuallyExclusive (isolatedByHyperv : bool)
    (r : runtimeapi.WindowsContainerResources)
  : M runtimeapi.WindowsContainerResources :=
  if negb isolatedByHyperv then
    if 0 <? runtimeapi.CpuCount r then
      r <- (if 0 <? runtimeapi.CpuShares r then
              let r := runtimeapi.setCpuShares 0 r in
              _ <- Warningf CPUCountOverCPUShares ;; ret r
            else ret r) ;;
      if 0 <? runtimeapi.CpuMaximum r then
        let r := runtimeapi.setCpuMaximum 0 r in
        _ <- Warningf CPUCountOverCPUMaximum ;; ret r
      else ret r
    else if 0 <? runtimeapi.CpuShares r then
      if 0 <? runtimeapi.CpuMaximum r then
        let r := runtimeapi.setCpuMaximum 0 r in
        _ <- Warningf CPUSharesOverCPUMaximum ;; ret r
      else ret r
    else ret r
  else ret r.

(** Lines 109-112. *)
Definition applyMemoryLimit (limits : v1.ResourceList)
    (r : runtimeapi.WindowsContainerResources)
  : runtimeapi.WindowsContainerResources :=
  let memoryLimit := Value (v1.Memory limits) in
  if negb (memoryLimit =? 0)
  then runtimeapi.setMemoryLimitInBytes memoryLimit r
  else r.

Definition nonEmpty (s : string) : bool :=
  match s with EmptyString => false | String _ _ => true end.

(** Lines 120-132: the user name and the credential spec, once the
    [RunAsUser] test has passed. *)
Definition applyUserAndCredentialSpec (effectiveSc : v1.SecurityContext)
    (username : string) (sc : runtimeapi.WindowsContainerSecurityContext)
  : runtimeapi.WindowsContainerSecurityContext :=
  let sc := if nonEmpty username
            then runtimeapi.setRunAsUsername username sc else sc in
  let sc := match v1.WindowsOptions effectiveSc with
            | Some opts =>
                match v1.GMSACredentialSpec opts with
                | Some spec =>
                    if WindowsGMSA env
                    then runtimeapi.setCredentialSpec spec sc else sc
                | None => sc
                end
            | None => sc
            end in
  (* override with Windows options if present *)
  match v1.WindowsOptions effectiveSc with
  | Some opts =>
      match v1.RunAsUserName opts with
      | Some name => runtimeapi.setRunAsUsername name sc
      | None => sc
      end
  | None => sc
  end.

(** Lines 115-132: setup security context.  RunAsUser only supports int64
    from the Kubernetes API, but Windows containers only support username. *)
Definition setupSecurityContext (effectiveSc : v1.SecurityContext)
    (username : string) (sc : runtimeapi.WindowsContainerSecurityContext)
  : M runtimeapi.WindowsContainerSecurityContext :=
  match v1.RunAsUser effectiveSc with
  | Some runAsUser => Errorf (ErrRunAsUidNotSupported runAsUser)
  | None => ret (applyUserAndCredentialSpec effectiveSc username sc)
  end.

(** The function; [uid] is a parameter the body never reads. *)
Definition generateWindowsContainerConfig (container : v1.Container)
    (pod : v1.Pod) (uid : option Z) (username : string)
  : M runtimeapi.WindowsContainerConfig :=
  let res := runtimeapi.zeroResources in
  let sc := runtimeapi.zeroSecurityContext in
  let cpuRequest := v1.Cpu (v1.Requests (v1.Resources container)) in
  let cpuLimit := v1.Cpu (v1.Limits (v1.Resources container)) in
  let isolatedByHyperv := ShouldIsolatedByHyperV env (v1.Annotations pod) in
  res <- cpuControlsBeforePrecedence cpuRequest cpuLimit isolatedByHyperv res ;;
  res <- resolveMutuallyExclusive isolatedByHyperv res ;;
  let res := applyMemoryLimit (v1.Limits (v1.Resources container)) res in
  let effectiveSc := DetermineEffectiveSecurityContext env pod container in
  sc <- setupSecurityContext effectiveSc username sc ;;
  ret (runtimeapi.mkConfig res sc).

(** [applyPlatformSpecificContainerConfig] applies platform specific
    configurations to [runtimeapi.ContainerConfig]: the generated
    configuration is stored in [config.Windows], and an error is passed on
    with [config] left as it was. *)
Definition applyPlatformSpecificContainerConfig {Other : Type}
    (config : runtimeapi.ContainerConfig Other)
    (container : v1.Container) (pod : v1.Pod) (uid : option Z)
    (username : string)
  : M (runtimeapi.ContainerConfig Other) :=
  windowsConfig <- generateWindowsContainerConfig container pod uid username ;;
  ret (runtimeapi.setWindows windowsConfig config).

End Kuberuntime.

(** ** Vocabulary of the properties *)

(** The ceiling of [a / b] for [b > 0]. *)
Definition ceilDiv (a b : Z) : Z := - ((- a) / b).

(** How many of the given fields are not zero. *)
Definition nonZeroCount (fields : list Z) : nat :=
  List.length (filter (fun v => negb (v =? 0)) fields).

(** The computation returns a value, and the value satisfies [P]. *)
Definition returns {A : Type} (res : outcome A * list Warning) (P : A -> Prop)
  : Prop :=
  exists a log', res = (Return a, log') /\ P a.

Definition isError {A : Type} (res : outcome A * list Warning) : Prop :=
  exists e log', res = (Error e, log').

(** The three right-hand sides of lines 62, 64 and 68, as [int64]
    expressions of the limit in millicores. *)
Definition hostCpuMaximum (env : Environment) (milli : Z) : Z :=
  Int64.quot (Int64.quot (Int64.mul 10000 milli) (NumCPU env)) 1000.

Definition hypervCpuCount (milli : Z) : Z :=
  Int64.quot (Int64.add milli 999) 1000.

Definition hypervCpuMaximum (milli : Z) : Z :=
  Int64.quot (Int64.mul (Int64.quot milli (hypervCpuCount milli)) 10000) 1000.

(** The value the spec's testable properties give for the Hyper-V
    [cpuMaximum]: the exact product divided once. *)
Definition exactHypervCpuMaximum (cpuLimitMilli cpuCount : Z) : Z :=
  cpuLimitMilli * 10000 / (cpuCount * 1000).

(** Lines 109-134 for settled CPU controls [r1]: what the function gives
    once the precedence step is over. *)
Definition finish (env : Environment) (container : v1.Container)
    (pod : v1.Pod) (username : string)
    (r1 : runtimeapi.WindowsContainerResources) (log1 : list Warning)
  : outcome runtimeapi.WindowsContainerConfig * list Warning :=
  match v1.RunAsUser (DetermineEffectiveSecurityContext env pod container) with
  | Some runAsUser => (Error (ErrRunAsUidNotSupported runAsUser), log1)
  | None =>
      (Return
         (runtimeapi.mkConfig
            (applyMemoryLimit (v1.Limits (v1.Resources container)) r1)
            (applyUserAndCredentialSpec env
               (DetermineEffectiveSecurityContext env pod container) username
               runtimeapi.zeroSecurityContext)), log1)
  end.

(** A container with the given CPU request, CPU limit and memory limit. *)
Definition containerWith (cpuRequestMilli cpuLimitMilli memoryLimitBytes : Z)
  : v1.Container :=
  v1.mkContainer EmptyString
    (v1.mkResourceRequirements
       (v1.mkResourceList (quantityOf cpuLimitMilli 0)
                          (quantityOf 0 memoryLimitBytes))
       (v1.mkResourceList (quantityOf cpuRequestMilli 0)
                          (quantityOf 0 0))).

(** ** A concrete environment, to run the function on examples *)

(** A mapping from millicores to shares that sends 0 to 0 and stays within
    [0, 10000]; the helper of the repository is not in the source file. *)
Definition sampleShares (milliCPU : Z) (hyperv : bool) : Z :=
  Z.min 10000 (Z.max 0 milliCPU).

(** Hyper-V isolation is requested by any annotation. *)
Definition sampleIsolation (annotations : list (string * string)) : bool :=
  match annotations with [] => false | _ :: _ => true end.

Definition sampleEnv (numCPU : Z) (effectiveSc : v1.SecurityContext)
  : Environment :=
  mkEnvironment numCPU sampleShares sampleIsolation
    (fun _ _ => effectiveSc) true.

Definition defaultPod : v1.Pod := v1.mkPod [].
Definition hypervPod : v1.Pod :=
  v1.mkPod [("isolation-type"%string, "hyperv"%string)].

Definition plainSc : v1.SecurityContext := v1.mkSecurityContext None None.

(** ** Arithmetic of [int64] *)

Lemma wrap_in_range (z : Z) : Int64.in_range z -> Int64.wrap z = z.
Proof.
  unfold Int64.in_range, Int64.wrap, Int64.min_signed, Int64.max_signed,
    Int64.half_modulus, Int64.modulus.
  intros H. rewrite Z.mod_small; lia.
Qed.

Lemma wrap_range (z : Z) : Int64.in_range (Int64.wrap z).
Proof.
  unfold Int64.in_range, Int64.wrap, Int64.min_signed, Int64.max_signed,
    Int64.half_modulus, Int64.modulus.
  pose proof (Z.mod_pos_bound (z + 9223372036854775808) 18446744073709551616).
  lia.
Qed.

Lemma quot_nonneg_small (a b : Z) :
  0 <= a <= Int64.max_signed -> 0 < b -> Int64.quot a b = a / b.
Proof.
  intros Ha Hb. unfold Int64.quot.
  rewrite Z.quot_div_nonneg by lia.
  apply wrap_in_range. unfold Int64.in_range, Int64.min_signed in *.
  pose proof (Z.div_pos a b). pose proof (Z.div_le_upper_bound a b a).
  assert (a / b <= a) by (apply Z.div_le_upper_bound; nia).
  assert (0 <= a / b) by (apply Z.div_pos; lia).
  lia.
Qed.

Lemma ceilDiv_spec (a b : Z) :
  0 < b -> (ceilDiv a b - 1) * b < a <= ceilDiv a b * b.
Proof.
  intros Hb. unfold ceilDiv.
  pose proof (Z.div_mod (- a) b). pose proof (Z.mod_pos_bound (- a) b).
  nia.
Qed.

Lemma ceilDiv_1000 (a : Z) : ceilDiv a 1000 = (a + 999) / 1000.
Proof.
  unfold ceilDiv.
  pose proof (Z.div_mod (- a) 1000). pose proof (Z.mod_pos_bound (- a) 1000).
  pose proof (Z.div_mod (a + 999) 1000).
  pose proof (Z.mod_pos_bound (a + 999) 1000).
  lia.
Qed.

Lemma hypervCpuCount_ceil (milli : Z) :
  0 < milli <= Int64.max_signed - 999 ->
  hypervCpuCount milli = ceilDiv milli 1000.
Proof.
  intros H. unfold hypervCpuCount, Int64.add.
  unfold Int64.max_signed in *.
  rewrite wrap_in_range
    by (unfold Int64.in_range, Int64.min_signed, Int64.max_signed; lia).
  rewrite quot_nonneg_small by (unfold Int64.max_signed; lia).
  symmetry. apply ceilDiv_1000.
Qed.

(** ** The stages of the function, one equation each *)

Lemma div_nonzero (a b : Z) (log : list Warning) :
  b <> 0 -> div a b log = (Return (Int64.quot a b), log).
Proof.
  intros Hb. unfold div. apply Z.eqb_neq in Hb. now rewrite Hb.
Qed.

Lemma div_zero (a : Z) (log : list Warning) :
  div a 0 log = (Panic IntegerDivideByZero, log).
Proof. reflexivity. Qed.

(** A quantity with thousandths to count is not zero. *)
Lemma IsZero_false (q : Quantity) : MilliValue q <> 0 -> IsZero q = false.
Proof.
  intros H. destruct (IsZero q) eqn:E; [| reflexivity].
  now apply zero_has_no_millis in E.
Qed.

Section Stages.

Variable env : Environment.

Lemma cpuMaximumBeforeClamp_default cpuLimit r log :
  NumCPU env <> 0 ->
  cpuMaximumBeforeClamp env cpuLimit false r log
  = (Return (r, hostCpuMaximum env (MilliValue cpuLimit)), log).
Proof.
  intros HN. unfold cpuMaximumBeforeClamp, bind.
  rewrite (div_nonzero _ _ _ HN).
  rewrite div_nonzero by discriminate. reflexivity.
Qed.

Lemma cpuMaximumBeforeClamp_hyperv cpuLimit r log :
  NumCPU env <> 0 ->
  cpuMaximumBeforeClamp env cpuLimit true r log
  = (Return (runtimeapi.setCpuCount (hypervCpuCount (MilliValue cpuLimit)) r,
             if hypervCpuCount (MilliValue cpuLimit) =? 0
             then hostCpuMaximum env (MilliValue cpuLimit)
             else hypervCpuMaximum (MilliValue cpuLimit)), log).
Proof.
  intros HN. unfold cpuMaximumBeforeClamp, bind.
  rewrite (div_nonzero _ _ _ HN).
  rewrite !(div_nonzero _ 1000) by discriminate.
  fold (hypervCpuCount (MilliValue cpuLimit)).
  destruct (hypervCpuCount (MilliValue cpuLimit) =? 0) eqn:Hc; cbn [negb].
  - reflexivity.
  - apply Z.eqb_neq in Hc. rewrite (div_nonzero _ _ _ Hc).
    rewrite div_nonzero by discriminate. reflexivity.
Qed.

Lemma cpuMaximumBeforeClamp_no_host cpuLimit hv r log :
  NumCPU env = 0 ->
  cpuMaximumBeforeClamp env cpuLimit hv r log
  = (Panic IntegerDivideByZero, log).
Proof.
  intros HN. unfold cpuMaximumBeforeClamp, bind. now rewrite HN, div_zero.
Qed.

Lemma applyCpuLimit_unset cpuLimit hv r log :
  IsZero cpuLimit = true ->
  applyCpuLimit env cpuLimit hv r log = (Return r, log).
Proof.
  intros HL. unfold applyCpuLimit. now rewrite HL.
Qed.

Lemma applyCpuLimit_set_default cpuLimit r log :
  IsZero cpuLimit = false -> NumCPU env <> 0 ->
  applyCpuLimit env cpuLimit false r log
  = (Return (runtimeapi.setCpuMaximum
               (clampCpuMaximum (hostCpuMaximum env (MilliValue cpuLimit))) r),
     log).
Proof.
  intros HL HN. unfold applyCpuLimit.
  rewrite HL. cbn [negb]. unfold bind.
  now rewrite cpuMaximumBeforeClamp_default.
Qed.

Lemma applyCpuLimit_set_hyperv cpuLimit r log :
  IsZero cpuLimit = false -> NumCPU env <> 0 ->
  applyCpuLimit env cpuLimit true r log
  = (Return (runtimeapi.setCpuMaximum
               (clampCpuMaximum
                  (if hypervCpuCount (MilliValue cpuLimit) =? 0
                   then hostCpuMaximum env (MilliValue cpuLimit)
                   else hypervCpuMaximum (MilliValue cpuLimit)))
               (runtimeapi.setCpuCount
                  (hypervCpuCount (MilliValue cpuLimit)) r)),
     log).
Proof.
  intros HL HN. unfold applyCpuLimit.
  rewrite HL. cbn [negb]. unfold bind.
  now rewrite cpuMaximumBeforeClamp_hyperv.
Qed.

Lemma applyCpuLimit_default cpuLimit r log :
  MilliValue cpuLimit <> 0 -> NumCPU env <> 0 ->
  applyCpuLimit env cpuLimit false r log
  = (Return (runtimeapi.setCpuMaximum
               (clampCpuMaximum (hostCpuMaximum env (MilliValue cpuLimit))) r),
     log).
Proof.
  intros HL HN. apply applyCpuLimit_set_default; [| assumption].
  now apply IsZero_false.
Qed.

Lemma applyCpuLimit_hyperv cpuLimit r log :
  MilliValue cpuLimit <> 0 -> NumCPU env <> 0 ->
  applyCpuLimit env cpuLimit true r log
  = (Return (runtimeapi.setCpuMaximum
               (clampCpuMaximum
                  (if hypervCpuCount (MilliValue cpuLimit) =? 0
                   then hostCpuMaximum env (MilliValue cpuLimit)
                   else hypervCpuMaximum (MilliValue cpuLimit)))
               (runtimeapi.setCpuCount
                  (hypervCpuCount (MilliValue cpuLimit)) r)),
     log).
Proof.
  intros HL HN. apply applyCpuLimit_set_hyperv; [| assumption].
  now apply IsZero_false.
Qed.

(** Without a limit, or with a host CPU count that is not zero, lines 57-85
    return; under Default isolation they leave [CpuCount] as it was. *)
Lemma cpuControlsBeforePrecedence_returns cpuRequest cpuLimit hv r log :
  IsZero cpuLimit = true \/ NumCPU env <> 0 ->
  exists r',
    cpuControlsBeforePrecedence env cpuRequest cpuLimit hv r log
    = (Return r', log)
    /\ runtimeapi.CpuShares r' = computeCpuShares env cpuRequest cpuLimit hv
    /\ (hv = false -> runtimeapi.CpuCount r' = runtimeapi.CpuCount r)
    /\ (hv = false -> IsZero cpuLimit = false ->
        runtimeapi.CpuMaximum r'
        = clampCpuMaximum (hostCpuMaximum env (MilliValue cpuLimit)))
    /\ (hv = true -> IsZero cpuLimit = false ->
        runtimeapi.CpuCount r' = hypervCpuCount (MilliValue cpuLimit)
        /\ runtimeapi.CpuMaximum r'
           = clampCpuMaximum
               (if hypervCpuCount (MilliValue cpuLimit) =? 0
                then hostCpuMaximum env (MilliValue cpuLimit)
                else hypervCpuMaximum (MilliValue cpuLimit)))
    /\ (IsZero cpuLimit = true ->
        runtimeapi.CpuCount r' = runtimeapi.CpuCount r
        /\ runtimeapi.CpuMaximum r' = runtimeapi.CpuMaximum r).
Proof.
  intros H. unfold cpuControlsBeforePrecedence, bind.
  destruct (IsZero cpuLimit) eqn:HL.
  - rewrite applyCpuLimit_unset by assumption.
    eexists; split; [reflexivity |]. cbn.
    repeat split; try reflexivity; intros; congruence.
  - destruct H as [H | HN]; [discriminate |].
    destruct hv.
    + rewrite applyCpuLimit_set_hyperv by assumption.
      eexists; split; [reflexivity |]. cbn.
      repeat split; try reflexivity; intros; congruence.
    + rewrite applyCpuLimit_set_default by assumption.
      eexists; split; [reflexivity |]. cbn.
      repeat split; try reflexivity; intros; congruence.
Qed.

Lemma resolveMutuallyExclusive_hyperv r log :
  resolveMutuallyExclusive true r log = (Return r, log).
Proof. reflexivity. Qed.

(** Under Default isolation with no [CpuCount], only the second branch of
    the precedence step can be taken. *)
Lemma resolveMutuallyExclusive_no_count r log :
  runtimeapi.CpuCount r <= 0 ->
  resolveMutuallyExclusive false r log
  = if (0 <? runtimeapi.CpuShares r) && (0 <? runtimeapi.CpuMaximum r)
    then (Return (runtimeapi.setCpuMaximum 0 r),
          log ++ [CPUSharesOverCPUMaximum])
    else (Return r, log).
Proof.
  intros Hc. unfold resolveMutuallyExclusive. cbn [negb].
  assert (Hlt : (0 <? runtimeapi.CpuCount r) = false) by (apply Z.ltb_ge; lia).
  rewrite Hlt.
  destruct (0 <? runtimeapi.CpuShares r), (0 <? runtimeapi.CpuMaximum r);
    reflexivity.
Qed.

Lemma setupSecurityContext_none effectiveSc username sc log :
  v1.RunAsUser effectiveSc = None ->
  setupSecurityContext env effectiveSc username sc log
  = (Return (applyUserAndCredentialSpec env effectiveSc username sc), log).
Proof. intros H. unfold setupSecurityContext. now rewrite H. Qed.

Lemma setupSecurityContext_some effectiveSc username sc log runAsUser :
  v1.RunAsUser effectiveSc = Some runAsUser ->
  setupSecurityContext env effectiveSc username sc log
  = (Error (ErrRunAsUidNotSupported runAsUser), log).
Proof. intros H. unfold setupSecurityContext. now rewrite H. Qed.

(** The function assembled from its stages. *)
Lemma generate_from_stages container pod uid username log r0 r1 log1 :
  cpuControlsBeforePrecedence env
    (v1.Cpu (v1.Requests (v1.Resources container)))
    (v1.Cpu (v1.Limits (v1.Resources container)))
    (ShouldIsolatedByHyperV env (v1.Annotations pod))
    runtimeapi.zeroResources log = (Return r0, log) ->
  resolveMutuallyExclusive
    (ShouldIsolatedByHyperV env (v1.Annotations pod)) r0 log
  = (Return r1, log1) ->
  generateWindowsContainerConfig env container pod uid username log
  = match v1.RunAsUser (DetermineEffectiveSecurityContext env pod container)
    with
    | Some runAsUser => (Error (ErrRunAsUidNotSupported runAsUser), log1)
    | None =>
        (Return
           (runtimeapi.mkConfig
              (applyMemoryLimit (v1.Limits (v1.Resources container)) r1)
              (applyUserAndCredentialSpec env
                 (DetermineEffectiveSecurityContext env pod container)
                 username runtimeapi.zeroSecurityContext)), log1)
    end.
Proof.
  intros H0 H1. unfold generateWindowsContainerConfig, bind.
  rewrite H0, H1. unfold setupSecurityContext.
  destruct (v1.RunAsUser (DetermineEffectiveSecurityContext env pod container));
    reflexivity.
Qed.

Lemma applyMemoryLimit_cpu limits r :
  runtimeapi.CpuCount (applyMemoryLimit limits r) = runtimeapi.CpuCount r
  /\ runtimeapi.CpuShares (applyMemoryLimit limits r) = runtimeapi.CpuShares r
  /\ runtimeapi.CpuMaximum (applyMemoryLimit limits r)
     = runtimeapi.CpuMaximum r.
Proof.
  unfold applyMemoryLimit.
  destruct (negb (Value (v1.Memory limits) =? 0)); cbn; auto.
Qed.

End Stages.

(** ** The function under each isolation mode *)

Section Whole.

Variable env : Environment.
Variables (container : v1.Container) (pod : v1.Pod).
Variables (uid : option Z) (username : string) (log : list Warning).

Let cpuRequest := v1.Cpu (v1.Requests (v1.Resources container)).
Let cpuLimit := v1.Cpu (v1.Limits (v1.Resources container)).
Lemma generate_default :
  ShouldIsolatedByHyperV env (v1.Annotations pod) = false ->
  IsZero cpuLimit = true \/ NumCPU env <> 0 ->
  exists r1 log1,
    generateWindowsContainerConfig env container pod uid username log
    = finish env container pod username r1 log1
    /\ runtimeapi.CpuCount r1 = 0
    /\ runtimeapi.CpuShares r1 = computeCpuShares env cpuRequest cpuLimit false
    /\ runtimeapi.CpuMaximum r1
       = (if 0 <? computeCpuShares env cpuRequest cpuLimit false then 0
          else if IsZero cpuLimit then 0
          else clampCpuMaximum (hostCpuMaximum env (MilliValue cpuLimit)))
    /\ (log1 = log \/ log1 = log ++ [CPUSharesOverCPUMaximum]).
Proof.
  intros Hhv HN.
  destruct (cpuControlsBeforePrecedence_returns env cpuRequest cpuLimit false
              runtimeapi.zeroResources log HN)
    as (r0 & Hr0 & Hs & Hc & Hm & _ & Hz).
  specialize (Hc eq_refl). cbn in Hc.
  pose proof (resolveMutuallyExclusive_no_count r0 log) as Hres.
  rewrite Hc in Hres. specialize (Hres (Z.le_refl 0)).
  assert (HM : runtimeapi.CpuMaximum r0
               = if IsZero cpuLimit then 0
                 else clampCpuMaximum
                        (hostCpuMaximum env (MilliValue cpuLimit))).
  { destruct (IsZero cpuLimit) eqn:HL.
    - now destruct (Hz eq_refl).
    - now apply Hm. }
  assert (HMnn : 0 <= runtimeapi.CpuMaximum r0).
  { rewrite HM. destruct (IsZero cpuLimit); [lia |].
    unfold clampCpuMaximum.
    destruct (hostCpuMaximum env (MilliValue cpuLimit) <? 1) eqn:E1; [lia |].
    destruct (10000 <? hostCpuMaximum env (MilliValue cpuLimit)); [lia |].
    apply Z.ltb_ge in E1. lia. }
  destruct ((0 <? runtimeapi.CpuShares r0) && (0 <? runtimeapi.CpuMaximum r0))
    eqn:Hb.
  - apply andb_true_iff in Hb. destruct Hb as [Hb1 Hb2].
    exists (runtimeapi.setCpuMaximum 0 r0), (log ++ [CPUSharesOverCPUMaximum]).
    split.
    { unfold finish.
      apply generate_from_stages with (r0 := r0); rewrite Hhv; assumption. }
    cbn. rewrite <- Hs, Hb1. auto.
  - exists r0, log. split.
    { unfold finish.
      apply generate_from_stages with (r0 := r0); rewrite Hhv; assumption. }
    rewrite <- Hs. repeat split; auto.
    apply andb_false_iff in Hb. destruct Hb as [Hb | Hb].
    + now rewrite Hb.
    + apply Z.ltb_ge in Hb.
      assert (runtimeapi.CpuMaximum r0 = 0) by lia.
      destruct (0 <? runtimeapi.CpuShares r0); congruence.
Qed.

Lemma generate_hyperv :
  ShouldIsolatedByHyperV env (v1.Annotations pod) = true ->
  IsZero cpuLimit = true \/ NumCPU env <> 0 ->
  exists r1,
    generateWindowsContainerConfig env container pod uid username log
    = finish env container pod username r1 log
    /\ runtimeapi.CpuShares r1 = computeCpuShares env cpuRequest cpuLimit true
    /\ (IsZero cpuLimit = true ->
        runtimeapi.CpuCount r1 = 0 /\ runtimeapi.CpuMaximum r1 = 0)
    /\ (IsZero cpuLimit = false ->
        runtimeapi.CpuCount r1 = hypervCpuCount (MilliValue cpuLimit)
        /\ runtimeapi.CpuMaximum r1
           = clampCpuMaximum
               (if hypervCpuCount (MilliValue cpuLimit) =? 0
                then hostCpuMaximum env (MilliValue cpuLimit)
                else hypervCpuMaximum (MilliValue cpuLimit))).
Proof.
  intros Hhv HN.
  destruct (cpuControlsBeforePrecedence_returns env cpuRequest cpuLimit true
              runtimeapi.zeroResources log HN)
    as (r0 & Hr0 & Hs & _ & _ & Hm & Hz).
  exists r0. split.
  { unfold finish.
    apply generate_from_stages with (r0 := r0); rewrite Hhv;
      [assumption | reflexivity]. }
  split; [assumption |]. split.
  - intros e. exact (Hz e).
  - intros n. exact (Hm eq_refl n).
Qed.

End Whole.

(** ** Properties of the CPU controls *)

Lemma nonZeroCount_le_1 (count shares maximum : Z) :
  count = 0 -> shares = 0 \/ maximum = 0 ->
  (nonZeroCount [count; shares; maximum] <= 1)%nat.
Proof.
  intros -> [-> | ->]; unfold nonZeroCount; cbn.
  - destruct (maximum =? 0); cbn; lia.
  - destruct (shares =? 0); cbn; lia.
Qed.

Lemma clampCpuMaximum_range (v : Z) : 1 <= clampCpuMaximum v <= 10000.
Proof.
  unfold clampCpuMaximum.
  destruct (Z.ltb_spec v 1); [lia |].
  destruct (Z.ltb_spec 10000 v); lia.
Qed.

Lemma clampCpuMaximum_inside (v : Z) :
  1 <= v <= 10000 -> clampCpuMaximum v = v.
Proof.
  intros H. unfold clampCpuMaximum.
  destruct (Z.ltb_spec v 1); [lia |].
  destruct (Z.ltb_spec 10000 v); lia.
Qed.

(** C1.  Under Default isolation, whatever the CPU request, the CPU limit
    and the memory limit, and for every host CPU count above zero, at most
    one of [CpuCount], [CpuShares] and [CpuMaximum] is non-zero in the
    resources that [generateWindowsContainerConfig] returns.  The helper
    [milliCPUToShares] is outside the file; it is taken to return no
    negative number of shares. *)
Theorem C1_default_controls_mutually_exclusive
    (env : Environment) (container : v1.Container) (pod : v1.Pod)
    (uid : option Z) (username : string) (log : list Warning) :
  (forall milliCPU hyperv, 0 <= milliCPUToShares env milliCPU hyperv) ->
  0 < NumCPU env ->
  ShouldIsolatedByHyperV env (v1.Annotations pod) = false ->
  v1.RunAsUser (DetermineEffectiveSecurityContext env pod container) = None ->
  returns (generateWindowsContainerConfig env container pod uid username log)
    (fun wc =>
       let r := runtimeapi.Resources wc in
       (nonZeroCount [runtimeapi.CpuCount r; runtimeapi.CpuShares r;
                      runtimeapi.CpuMaximum r] <= 1)%nat).
Proof.
  intros Hshares HN Hhv Hsc.
  destruct (generate_default env container pod uid username log Hhv)
    as (r1 & log1 & Hgen & Hc & Hs & Hm & _); [right; lia |].
  unfold finish in Hgen. rewrite Hsc in Hgen.
  eexists _, _. split; [exact Hgen |]. cbn.
  destruct (applyMemoryLimit_cpu (v1.Limits (v1.Resources container)) r1)
    as (-> & -> & ->).
  apply nonZeroCount_le_1; [assumption |].
  rewrite Hm, Hs.
  set (s := computeCpuShares env _ _ false).
  assert (0 <= s).
  { subst s. unfold computeCpuShares. cbv zeta.
    destruct (milliCPUToShares env _ _ =? 0); apply Hshares. }
  destruct (Z.ltb_spec 0 s); [right; reflexivity | left; lia].
Qed.

(** C10.  Under Default isolation the returned [CpuCount] is 0, lines 63-70
    being the only place where it is assigned; the first branch of the
    precedence step, the one that clears [CpuShares] and [CpuMaximum] for a
    positive [CpuCount], is never taken: neither of its two warnings is
    logged, whether the call ends in a result or in an error. *)
Theorem C10_default_cpu_count_branch_dead
    (env : Environment) (container : v1.Container) (pod : v1.Pod)
    (uid : option Z) (username : string) (log : list Warning) :
  0 < NumCPU env ->
  ShouldIsolatedByHyperV env (v1.Annotations pod) = false ->
  (v1.RunAsUser (DetermineEffectiveSecurityContext env pod container) = None ->
   returns (generateWindowsContainerConfig env container pod uid username log)
     (fun wc => runtimeapi.CpuCount (runtimeapi.Resources wc) = 0))
  /\ exists logged,
       snd (generateWindowsContainerConfig env container pod uid username log)
       = log ++ logged
       /\ ~ In CPUCountOverCPUShares logged
       /\ ~ In CPUCountOverCPUMaximum logged.
Proof.
  intros HN Hhv.
  destruct (generate_default env container pod uid username log Hhv)
    as (r1 & log1 & Hgen & Hc & _ & _ & Hlog); [right; lia |].
  split.
  - intros Hsc. unfold finish in Hgen. rewrite Hsc in Hgen.
    eexists _, _. split; [exact Hgen |]. cbn.
    destruct (applyMemoryLimit_cpu (v1.Limits (v1.Resources container)) r1)
      as (-> & _). assumption.
  - assert (Hsnd : snd (generateWindowsContainerConfig env container pod uid
                          username log) = log1).
    { rewrite Hgen. unfold finish.
      destruct (v1.RunAsUser _); reflexivity. }
    rewrite Hsnd. destruct Hlog as [-> | ->].
    + exists []. rewrite app_nil_r. cbn. tauto.
    + exists [CPUSharesOverCPUMaximum]. split; [reflexivity |].
      cbn. split; intros [H | []]; discriminate.
Qed.

(** C8 as amended.  For a CPU limit above zero and a host CPU count above
    zero under Default isolation, [CpuMaximum] lies in [1, 10000] when the
    precedence step is reached; in the returned resources it is 0 when the
    computed [CpuShares], the value of lines 81-84, is positive, and lies in
    [1, 10000] otherwise; the computed [CpuShares] is returned as it is. *)
Theorem C8_default_cpu_maximum_zero_or_in_range
    (env : Environment) (container : v1.Container) (pod : v1.Pod)
    (uid : option Z) (username : string) (log : list Warning) :
  0 < MilliValue (v1.Cpu (v1.Limits (v1.Resources container))) ->
  0 < NumCPU env ->
  ShouldIsolatedByHyperV env (v1.Annotations pod) = false ->
  v1.RunAsUser (DetermineEffectiveSecurityContext env pod container) = None ->
  returns
    (cpuControlsBeforePrecedence env
       (v1.Cpu (v1.Requests (v1.Resources container)))
       (v1.Cpu (v1.Limits (v1.Resources container)))
       false runtimeapi.zeroResources log)
    (fun r => 1 <= runtimeapi.CpuMaximum r <= 10000)
  /\ returns
       (generateWindowsContainerConfig env container pod uid username log)
       (fun wc =>
          let r := runtimeapi.Resources wc in
          let computed :=
            computeCpuShares env
              (v1.Cpu (v1.Requests (v1.Resources container)))
              (v1.Cpu (v1.Limits (v1.Resources container))) false in
          runtimeapi.CpuShares r = computed
          /\ (0 < computed -> runtimeapi.CpuMaximum r = 0)
          /\ (computed <= 0 -> 1 <= runtimeapi.CpuMaximum r <= 10000)).
Proof.
  intros HL HN Hhv Hsc.
  assert (Hnz : IsZero (v1.Cpu (v1.Limits (v1.Resources container))) = false)
    by (apply IsZero_false; lia).
  split.
  - destruct (cpuControlsBeforePrecedence_returns env
                (v1.Cpu (v1.Requests (v1.Resources container)))
                (v1.Cpu (v1.Limits (v1.Resources container)))
                false runtimeapi.zeroResources log)
      as (r0 & Hr0 & _ & _ & Hm & _); [right; lia |].
    eexists _, _. split; [exact Hr0 |].
    rewrite (Hm eq_refl Hnz). apply clampCpuMaximum_range.
  - destruct (generate_default env container pod uid username log Hhv)
      as (r1 & log1 & Hgen & _ & Hs & Hm & _); [right; lia |].
    unfold finish in Hgen. rewrite Hsc in Hgen.
    eexists _, _. split; [exact Hgen |]. cbn.
    destruct (applyMemoryLimit_cpu (v1.Limits (v1.Resources container)) r1)
      as (_ & -> & ->).
    rewrite Hm, Hs, Hnz.
    set (s := computeCpuShares env _ _ false).
    split; [reflexivity |].
    destruct (Z.ltb_spec 0 s); split; intros; try lia.
    apply clampCpuMaximum_range.
Qed.

(** ** Properties of the error and of the security context *)

Lemma generate_finishes
    (env : Environment) (container : v1.Container) (pod : v1.Pod)
    (uid : option Z) (username : string) (log : list Warning) :
  IsZero (v1.Cpu (v1.Limits (v1.Resources container))) = true
  \/ NumCPU env <> 0 ->
  exists r1 log1,
    generateWindowsContainerConfig env container pod uid username log
    = finish env container pod username r1 log1.
Proof.
  intros HN.
  destruct (ShouldIsolatedByHyperV env (v1.Annotations pod)) eqn:Hhv.
  - destruct (generate_hyperv env container pod uid username log Hhv HN)
      as (r1 & Hgen & _). eauto.
  - destruct (generate_default env container pod uid username log Hhv HN)
      as (r1 & log1 & Hgen & _). eauto.
Qed.

(** A returned configuration carries the security context of lines
    120-132, and is returned only without a [RunAsUser]. *)
Lemma generate_security_context
    (env : Environment) (container : v1.Container) (pod : v1.Pod)
    (uid : option Z) (username : string) (log log' : list Warning)
    (wc : runtimeapi.WindowsContainerConfig) :
  generateWindowsContainerConfig env container pod uid username log
  = (Return wc, log') ->
  v1.RunAsUser (DetermineEffectiveSecurityContext env pod container) = None
  /\ runtimeapi.SecurityContext wc
     = applyUserAndCredentialSpec env
         (DetermineEffectiveSecurityContext env pod container) username
         runtimeapi.zeroSecurityContext.
Proof.
  unfold generateWindowsContainerConfig, bind, setupSecurityContext.
  destruct (cpuControlsBeforePrecedence _ _ _ _ _ _) as [[r0 | e | p] l0];
    try discriminate.
  destruct (resolveMutuallyExclusive _ _ _) as [[r1 | e | p] l1];
    try discriminate.
  destruct (v1.RunAsUser _); cbn; [discriminate |].
  intros H. injection H as <- _. auto.
Qed.

Lemma applyUserAndCredentialSpec_override
    (env : Environment) (effectiveSc : v1.SecurityContext)
    (opts : v1.WindowsSecurityContextOptions) (name username : string)
    (sc : runtimeapi.WindowsContainerSecurityContext) :
  v1.WindowsOptions effectiveSc = Some opts ->
  v1.RunAsUserName opts = Some name ->
  runtimeapi.RunAsUsername
    (applyUserAndCredentialSpec env effectiveSc username sc) = name.
Proof.
  intros Ho Hn. unfold applyUserAndCredentialSpec.
  rewrite Ho, Hn. reflexivity.
Qed.

(** C6.  With a host CPU count above zero, [generateWindowsContainerConfig]
    returns an error exactly when the effective security context has a
    [RunAsUser]; the error is then the "run as uid is not supported on
    Windows" one, whatever the other inputs are; without a [RunAsUser] the
    function returns a configuration. *)
Theorem C6_error_iff_run_as_user
    (env : Environment) (container : v1.Container) (pod : v1.Pod)
    (uid : option Z) (username : string) (log : list Warning) :
  0 < NumCPU env ->
  (isError (generateWindowsContainerConfig env container pod uid username log)
   <-> v1.RunAsUser (DetermineEffectiveSecurityContext env pod container)
       <> None)
  /\ (forall runAsUser,
        v1.RunAsUser (DetermineEffectiveSecurityContext env pod container)
        = Some runAsUser ->
        fst (generateWindowsContainerConfig env container pod uid username log)
        = Error (ErrRunAsUidNotSupported runAsUser))
  /\ (v1.RunAsUser (DetermineEffectiveSecurityContext env pod container)
      = None ->
      returns
        (generateWindowsContainerConfig env container pod uid username log)
        (fun _ => True)).
Proof.
  intros HN.
  destruct (generate_finishes env container pod uid username log)
    as (r1 & log1 & Hgen); [right; lia |].
  rewrite Hgen. unfold finish, isError, returns.
  destruct (v1.RunAsUser (DetermineEffectiveSecurityContext env pod container))
    as [runAsUser |].
  - split; [| split].
    + split; [discriminate | eauto].
    + intros u [= <-]. reflexivity.
    + discriminate.
  - split; [| split].
    + split; [intros (e & l & H); discriminate | congruence].
    + discriminate.
    + intros _. eauto.
Qed.

(** C7.  When the effective security context carries the Windows option
    [RunAsUserName], every configuration the function returns has that name
    as [RunAsUsername], whatever [username] was passed; and the function
    does return one when there is no [RunAsUser] and the host CPU count is
    above zero. *)
Theorem C7_windows_run_as_user_name_wins
    (env : Environment) (container : v1.Container) (pod : v1.Pod)
    (uid : option Z) (username : string) (log : list Warning)
    (opts : v1.WindowsSecurityContextOptions) (name : string) :
  v1.WindowsOptions (DetermineEffectiveSecurityContext env pod container)
  = Some opts ->
  v1.RunAsUserName opts = Some name ->
  (forall wc log',
     generateWindowsContainerConfig env container pod uid username log
     = (Return wc, log') ->
     runtimeapi.RunAsUsername (runtimeapi.SecurityContext wc) = name)
  /\ (0 < NumCPU env ->
      v1.RunAsUser (DetermineEffectiveSecurityContext env pod container)
      = None ->
      returns
        (generateWindowsContainerConfig env container pod uid username log)
        (fun wc =>
           runtimeapi.RunAsUsername (runtimeapi.SecurityContext wc) = name)).
Proof.
  intros Ho Hn.
  assert (Hall : forall wc log',
            generateWindowsContainerConfig env container pod uid username log
            = (Return wc, log') ->
            runtimeapi.RunAsUsername (runtimeapi.SecurityContext wc) = name).
  { intros wc log' Hgen.
    destruct (generate_security_context _ _ _ _ _ _ _ _ Hgen) as [_ ->].
    now apply applyUserAndCredentialSpec_override with (opts := opts). }
  split; [exact Hall |].
  intros HN Hsc.
  destruct (generate_finishes env container pod uid username log)
    as (r1 & log1 & Hgen); [right; lia |].
  unfold finish in Hgen. rewrite Hsc in Hgen.
  eexists _, _. split; [exact Hgen |]. eapply Hall. exact Hgen.
Qed.

(** C9.  On reaching the precedence step, [CpuShares] is
    [milliCPUToShares] of the CPU limit when that is not zero, and
    [milliCPUToShares] of the CPU request otherwise; when the limit and the
    request are both 0 and [milliCPUToShares] sends 0 to 0, the returned
    [CpuShares] is 0. *)
Theorem C9_cpu_shares_limit_then_request
    (env : Environment) (container : v1.Container) (pod : v1.Pod)
    (uid : option Z) (username : string) (log : list Warning) :
  0 < NumCPU env ->
  returns
    (cpuControlsBeforePrecedence env
       (v1.Cpu (v1.Requests (v1.Resources container)))
       (v1.Cpu (v1.Limits (v1.Resources container)))
       (ShouldIsolatedByHyperV env (v1.Annotations pod))
       runtimeapi.zeroResources log)
    (fun r =>
       runtimeapi.CpuShares r
       = if negb (milliCPUToShares env
                    (MilliValue (v1.Cpu (v1.Limits (v1.Resources container))))
                    (ShouldIsolatedByHyperV env (v1.Annotations pod)) =? 0)
         then milliCPUToShares env
                (MilliValue (v1.Cpu (v1.Limits (v1.Resources container))))
                (ShouldIsolatedByHyperV env (v1.Annotations pod))
         else milliCPUToShares env
                (MilliValue (v1.Cpu (v1.Requests (v1.Resources container))))
                (ShouldIsolatedByHyperV env (v1.Annotations pod)))
  /\ (MilliValue (v1.Cpu (v1.Limits (v1.Resources container))) = 0 ->
      MilliValue (v1.Cpu (v1.Requests (v1.Resources container))) = 0 ->
      milliCPUToShares env 0
        (ShouldIsolatedByHyperV env (v1.Annotations pod)) = 0 ->
      v1.RunAsUser (DetermineEffectiveSecurityContext env pod container)
      = None ->
      returns
        (generateWindowsContainerConfig env container pod uid username log)
        (fun wc => runtimeapi.CpuShares (runtimeapi.Resources wc) = 0)).
Proof.
  intros HN. split.
  - destruct (cpuControlsBeforePrecedence_returns env
                (v1.Cpu (v1.Requests (v1.Resources container)))
                (v1.Cpu (v1.Limits (v1.Resources container)))
                (ShouldIsolatedByHyperV env (v1.Annotations pod))
                runtimeapi.zeroResources log)
      as (r0 & Hr0 & Hs & _); [right; lia |].
    eexists _, _. split; [exact Hr0 |].
    rewrite Hs. unfold computeCpuShares. cbv zeta.
    destruct (milliCPUToShares env _ _ =? 0); reflexivity.
  - intros HL HR H0 Hsc.
    assert (Hshares :
              computeCpuShares env
                (v1.Cpu (v1.Requests (v1.Resources container)))
                (v1.Cpu (v1.Limits (v1.Resources container)))
                (ShouldIsolatedByHyperV env (v1.Annotations pod)) = 0).
    { unfold computeCpuShares. rewrite HL, HR, H0. reflexivity. }
    destruct (ShouldIsolatedByHyperV env (v1.Annotations pod)) eqn:Hhv.
    + destruct (generate_hyperv env container pod uid username log Hhv)
        as (r1 & Hgen & Hs & _); [right; lia |].
      unfold finish in Hgen. rewrite Hsc in Hgen.
      eexists _, _. split; [exact Hgen |]. cbn.
      destruct (applyMemoryLimit_cpu (v1.Limits (v1.Resources container)) r1)
        as (_ & -> & _). congruence.
    + destruct (generate_default env container pod uid username log Hhv)
        as (r1 & log1 & Hgen & _ & Hs & _); [right; lia |].
      unfold finish in Hgen. rewrite Hsc in Hgen.
      eexists _, _. split; [exact Hgen |]. cbn.
      destruct (applyMemoryLimit_cpu (v1.Limits (v1.Resources container)) r1)
        as (_ & -> & _). congruence.
Qed.

(** ** The arithmetic of lines 62-68 where nothing overflows *)

Lemma quot_in_range (a b : Z) :
  Int64.in_range a -> 0 < b -> Int64.quot a b = Z.quot a b.
Proof.
  intros Ha Hb. unfold Int64.quot. apply wrap_in_range.
  unfold Int64.in_range, Int64.min_signed, Int64.max_signed in *.
  destruct (Z.le_gt_cases 0 a) as [Hpos | Hneg].
  - rewrite Z.quot_div_nonneg by lia.
    assert (0 <= a / b) by (apply Z.div_pos; lia).
    assert (a / b <= a) by (apply Z.div_le_upper_bound; nia).
    lia.
  - replace a with (- (- a)) by lia.
    rewrite Z.quot_opp_l by lia.
    rewrite Z.quot_div_nonneg by lia.
    assert (0 <= (- a) / b) by (apply Z.div_pos; lia).
    assert ((- a) / b <= - a) by (apply Z.div_le_upper_bound; nia).
    lia.
Qed.

Lemma hostCpuMaximum_exact (env : Environment) (milli : Z) :
  0 < milli -> 10000 * milli <= Int64.max_signed -> 0 < NumCPU env ->
  hostCpuMaximum env milli = 10000 * milli / NumCPU env / 1000.
Proof.
  intros HL Hmax HN. unfold hostCpuMaximum, Int64.mul.
  rewrite wrap_in_range
    by (unfold Int64.in_range, Int64.min_signed, Int64.max_signed in *; lia).
  rewrite (quot_nonneg_small (10000 * milli)) by lia.
  apply quot_nonneg_small; [| lia].
  assert (0 <= 10000 * milli / NumCPU env) by (apply Z.div_pos; lia).
  assert (10000 * milli / NumCPU env <= 10000 * milli)
    by (apply Z.div_le_upper_bound; nia).
  lia.
Qed.

(** With a count that is the ceiling of [milli / 1000], the quotient of
    line 68 lies between 1 and 1000, and the product by 10000 fits. *)
Lemma hypervCpuMaximum_exact (milli : Z) :
  Int64.in_range milli -> 0 < milli ->
  hypervCpuCount milli = ceilDiv milli 1000 ->
  0 < hypervCpuCount milli ->
  hypervCpuMaximum milli = milli / hypervCpuCount milli * 10000 / 1000
  /\ 1 <= milli / hypervCpuCount milli <= 1000.
Proof.
  intros Hr HL Hceil Hpos. unfold hypervCpuMaximum.
  set (c := hypervCpuCount milli) in *.
  pose proof (ceilDiv_spec milli 1000 ltac:(lia)) as Hspec.
  rewrite <- Hceil in Hspec.
  assert (Hq : 1 <= milli / c <= 1000).
  { split.
    - apply Z.div_le_lower_bound; nia.
    - apply Z.div_le_upper_bound; nia. }
  split; [| exact Hq].
  unfold Int64.in_range, Int64.min_signed in Hr.
  rewrite (quot_nonneg_small milli c) by lia.
  unfold Int64.mul.
  rewrite wrap_in_range
    by (unfold Int64.in_range, Int64.min_signed, Int64.max_signed; lia).
  apply quot_nonneg_small; unfold Int64.max_signed; lia.
Qed.

Lemma times_10000_div_1000 (q : Z) : q * 10000 / 1000 = q * 10.
Proof.
  replace (q * 10000) with (q * 10 * 1000) by lia.
  apply Z.div_mul. discriminate.
Qed.

(** Dividing by the count first loses less than 10 against the exact
    product divided once. *)
Lemma divide_first_loss (milli c : Z) :
  0 <= milli -> 0 < c ->
  milli * 10000 / (c * 1000) - 10 < milli / c * 10000 / 1000
  <= milli * 10000 / (c * 1000).
Proof.
  intros HL Hc. rewrite times_10000_div_1000.
  replace (milli * 10000) with (milli * 10 * 1000) by lia.
  rewrite Z.div_mul_cancel_r by lia.
  pose proof (Z.div_mod milli c ltac:(lia)).
  pose proof (Z.mod_pos_bound milli c Hc).
  pose proof (Z.div_mod (milli * 10) c ltac:(lia)).
  pose proof (Z.mod_pos_bound (milli * 10) c Hc).
  nia.
Qed.

(** A limit above zero never gives a count of zero: where [milli + 999]
    overflows, the count is negative. *)
Lemma hypervCpuCount_nonzero (milli : Z) :
  Int64.in_range milli -> 0 < milli -> hypervCpuCount milli <> 0.
Proof.
  intros Hr HL.
  unfold Int64.in_range, Int64.min_signed, Int64.max_signed in Hr.
  destruct (Z.le_gt_cases milli (Int64.max_signed - 999)) as [Hs | Hb].
  - rewrite hypervCpuCount_ceil by lia.
    pose proof (ceilDiv_spec milli 1000 ltac:(lia)). lia.
  - unfold Int64.max_signed in Hb.
    unfold hypervCpuCount, Int64.add.
    assert (Hw : Int64.wrap (milli + 999)
                 = milli + 999 - 18446744073709551616).
    { unfold Int64.wrap, Int64.half_modulus, Int64.modulus.
      rewrite <- (Z.mod_unique (milli + 999 + 9223372036854775808)
                    18446744073709551616 1
                    (milli + 999 + 9223372036854775808
                     - 18446744073709551616)); lia. }
    rewrite Hw.
    rewrite quot_in_range
      by (unfold Int64.in_range, Int64.min_signed, Int64.max_signed; lia).
    set (x := milli + 999 - 18446744073709551616).
    assert (Hx : x <= -1000) by (subst x; lia).
    replace x with (- (- x)) by lia.
    rewrite Z.quot_opp_l by lia.
    rewrite Z.quot_div_nonneg by lia.
    assert (1 <= (- x) / 1000) by (apply Z.div_le_lower_bound; lia).
    lia.
Qed.

(** ** Properties of the CPU maximum *)

(** C2, refuted at the limit of 2500 millicores: the count is 3 as claimed,
    but the value reaching the clamp is 8330 and not 8333. *)
Lemma C2_counterexample_2500 :
  hypervCpuCount 2500 = ceilDiv 2500 1000
  /\ cpuMaximumBeforeClamp (sampleEnv 4 plainSc) (quantityOf 2500 0) true
       runtimeapi.zeroResources []
     = (Return (runtimeapi.setCpuCount 3 runtimeapi.zeroResources, 8330), [])
  /\ exactHypervCpuMaximum 2500 3 = 8333
  /\ 8330 <> exactHypervCpuMaximum 2500 3.
Proof. repeat split; vm_compute; congruence. Qed.

(** C2 as amended.  For a CPU limit above zero under Hyper-V isolation
    whose sum with 999 fits [int64] (limit <= 2^63 - 1000; what line 64
    gives beyond that is left aside here), the count is the ceiling of
    limit / 1000 and is positive, and the value of [cpuMaximum] reaching the
    clamp is limit / count * 10000 / 1000 with the division by the count
    taken first; it is at most the exact product divided once,
    limit * 10000 / (count * 1000), and less than 10 below it. *)
Theorem C2_hyperv_cpu_maximum_divides_first
    (env : Environment) (cpuLimit : Quantity)
    (r : runtimeapi.WindowsContainerResources) (log : list Warning) :
  0 < MilliValue cpuLimit <= Int64.max_signed - 999 ->
  0 < NumCPU env ->
  0 < ceilDiv (MilliValue cpuLimit) 1000
  /\ cpuMaximumBeforeClamp env cpuLimit true r log
     = (Return (runtimeapi.setCpuCount (ceilDiv (MilliValue cpuLimit) 1000) r,
                MilliValue cpuLimit / ceilDiv (MilliValue cpuLimit) 1000
                * 10000 / 1000), log)
  /\ exactHypervCpuMaximum (MilliValue cpuLimit)
       (ceilDiv (MilliValue cpuLimit) 1000) - 10
     < MilliValue cpuLimit / ceilDiv (MilliValue cpuLimit) 1000 * 10000 / 1000
     <= exactHypervCpuMaximum (MilliValue cpuLimit)
          (ceilDiv (MilliValue cpuLimit) 1000).
Proof.
  intros HL HN.
  assert (Hr : Int64.in_range (MilliValue cpuLimit))
    by (unfold Int64.in_range, Int64.min_signed, Int64.max_signed in *; lia).
  pose proof (hypervCpuCount_ceil _ HL) as Hceil.
  pose proof (ceilDiv_spec (MilliValue cpuLimit) 1000 ltac:(lia)) as Hspec.
  assert (Hpos : 0 < hypervCpuCount (MilliValue cpuLimit)) by lia.
  destruct (hypervCpuMaximum_exact _ Hr ltac:(lia) Hceil Hpos) as [Hmax _].
  split; [lia |]. split.
  - rewrite cpuMaximumBeforeClamp_hyperv by lia.
    assert (Hnz : (hypervCpuCount (MilliValue cpuLimit) =? 0) = false)
      by (apply Z.eqb_neq; lia).
    rewrite Hnz, Hmax, Hceil. reflexivity.
  - unfold exactHypervCpuMaximum. apply divide_first_loss; lia.
Qed.

(** C3.  The code at the largest [int64] limit under Hyper-V isolation: the
    sum [MilliValue() + 999] of the round-up of line 64 wraps around, and
    the returned [CpuCount] is -9223372036854774 where the ceiling of
    limit / 1000, which the round-up is written to give, is
    9223372036854776. *)
Lemma C3_code_at_max_int64 :
  generateWindowsContainerConfig (sampleEnv 4 plainSc)
    (containerWith 0 Int64.max_signed 0) hypervPod None EmptyString []
  = (Return
       (runtimeapi.mkConfig
          (runtimeapi.mkResources 10000 (-9223372036854774) 1 0)
          runtimeapi.zeroSecurityContext), [])
  /\ ceilDiv Int64.max_signed 1000 = 9223372036854776
  /\ -9223372036854774 <> ceilDiv Int64.max_signed 1000.
Proof. repeat split; vm_compute; congruence. Qed.

(** Where the sum of line 64 does not wrap, the round-up does what it is
    written for: for a CPU limit above zero and at most 2^63 - 1000 under
    Hyper-V isolation, the returned [CpuCount] is the ceiling of
    limit / 1000, which is not zero, and [cpuMaximum] is overridden by
    limit / count * 10000 / 1000, evaluated from left to right with
    truncating divisions, before the clamp. *)
Lemma hyperv_cpu_count_and_override_in_range
    (env : Environment) (container : v1.Container) (pod : v1.Pod)
    (uid : option Z) (username : string) (log : list Warning) :
  0 < MilliValue (v1.Cpu (v1.Limits (v1.Resources container)))
    <= Int64.max_signed - 999 ->
  0 < NumCPU env ->
  ShouldIsolatedByHyperV env (v1.Annotations pod) = true ->
  v1.RunAsUser (DetermineEffectiveSecurityContext env pod container) = None ->
  returns
    (cpuMaximumBeforeClamp env (v1.Cpu (v1.Limits (v1.Resources container)))
       true runtimeapi.zeroResources log)
    (fun p =>
       runtimeapi.CpuCount (fst p)
       = ceilDiv (MilliValue (v1.Cpu (v1.Limits (v1.Resources container))))
           1000
       /\ snd p
          = Z.quot
              (Z.quot
                 (MilliValue (v1.Cpu (v1.Limits (v1.Resources container))))
                 (runtimeapi.CpuCount (fst p)) * 10000) 1000)
  /\ returns
       (generateWindowsContainerConfig env container pod uid username log)
       (fun wc =>
          let r := runtimeapi.Resources wc in
          runtimeapi.CpuCount r
          = ceilDiv (MilliValue (v1.Cpu (v1.Limits (v1.Resources container))))
              1000
          /\ runtimeapi.CpuCount r <> 0
          /\ runtimeapi.CpuMaximum r
             = clampCpuMaximum
                 (Z.quot
                    (Z.quot
                       (MilliValue
                          (v1.Cpu (v1.Limits (v1.Resources container))))
                       (runtimeapi.CpuCount r) * 10000) 1000)).
Proof.
  set (milli := MilliValue (v1.Cpu (v1.Limits (v1.Resources container)))).
  intros HL HN Hhv Hsc.
  assert (Hr : Int64.in_range milli)
    by (unfold Int64.in_range, Int64.min_signed, Int64.max_signed in *; lia).
  pose proof (hypervCpuCount_ceil milli HL) as Hceil.
  pose proof (ceilDiv_spec milli 1000 ltac:(lia)) as Hspec.
  assert (Hpos : 0 < hypervCpuCount milli) by lia.
  destruct (hypervCpuMaximum_exact milli Hr ltac:(lia) Hceil Hpos)
    as [Hmax Hq].
  assert (Hnz : (hypervCpuCount milli =? 0) = false)
    by (apply Z.eqb_neq; lia).
  assert (Hquot : hypervCpuMaximum milli
                  = Z.quot (Z.quot milli (ceilDiv milli 1000) * 10000) 1000).
  { rewrite Hmax. rewrite Hceil in *.
    rewrite (Z.quot_div_nonneg milli) by lia.
    rewrite Z.quot_div_nonneg by lia. reflexivity. }
  split.
  - rewrite cpuMaximumBeforeClamp_hyperv by lia. fold milli.
    eexists _, _. split; [reflexivity |]. cbn.
    rewrite Hnz, Hceil. split; [reflexivity | exact Hquot].
  - destruct (generate_hyperv env container pod uid username log Hhv)
      as (r1 & Hgen & _ & _ & Hlim); [right; lia |].
    fold milli in Hlim. destruct Hlim as [Hc Hm]; [apply IsZero_false; fold milli; lia |].
    unfold finish in Hgen. rewrite Hsc in Hgen.
    eexists _, _. split; [exact Hgen |]. cbn.
    destruct (applyMemoryLimit_cpu (v1.Limits (v1.Resources container)) r1)
      as (-> & _ & ->).
    rewrite Hm, Hc, Hnz, Hceil. repeat split; [lia |].
    now rewrite <- Hquot.
Qed.

(** C4.  The code at 922337203685478 millicores on a host with one CPU
    under Default isolation: the product by 10000 of line 62 wraps around
    in [int64], and the [CpuMaximum] kept is 1 where
    10000 * limit / hostCPUCount / 1000, clamped, is 10000. *)
Lemma C4_code_at_product_overflow :
  cpuControlsBeforePrecedence (sampleEnv 1 plainSc)
    (quantityOf 0 0) (quantityOf 922337203685478 0) false
    runtimeapi.zeroResources []
  = (Return (runtimeapi.mkResources 10000 0 1 0), [])
  /\ clampCpuMaximum (10000 * 922337203685478 / 1 / 1000) = 10000.
Proof. split; vm_compute; reflexivity. Qed.

(** Where the product of line 62 does not wrap, the formula is the one of
    the integers: for a CPU limit above zero with 10000 * limit within
    [int64] and a host CPU count above zero under Default isolation, the
    [CpuMaximum] held on reaching the precedence step is
    10000 * limit / hostCPUCount / 1000, clamped into [1, 10000]. *)
Lemma default_cpu_maximum_formula_in_range
    (env : Environment) (container : v1.Container) (pod : v1.Pod)
    (log : list Warning) :
  0 < MilliValue (v1.Cpu (v1.Limits (v1.Resources container))) ->
  10000 * MilliValue (v1.Cpu (v1.Limits (v1.Resources container)))
    <= Int64.max_signed ->
  0 < NumCPU env ->
  ShouldIsolatedByHyperV env (v1.Annotations pod) = false ->
  returns
    (cpuControlsBeforePrecedence env
       (v1.Cpu (v1.Requests (v1.Resources container)))
       (v1.Cpu (v1.Limits (v1.Resources container)))
       (ShouldIsolatedByHyperV env (v1.Annotations pod))
       runtimeapi.zeroResources log)
    (fun r =>
       runtimeapi.CpuMaximum r
       = clampCpuMaximum
           (10000 * MilliValue (v1.Cpu (v1.Limits (v1.Resources container)))
            / NumCPU env / 1000)
       /\ 1 <= runtimeapi.CpuMaximum r <= 10000).
Proof.
  intros HL Hmax HN Hhv. rewrite Hhv.
  destruct (cpuControlsBeforePrecedence_returns env
              (v1.Cpu (v1.Requests (v1.Resources container)))
              (v1.Cpu (v1.Limits (v1.Resources container)))
              false runtimeapi.zeroResources log)
    as (r0 & Hr0 & _ & _ & Hm & _); [right; lia |].
  eexists _, _. split; [exact Hr0 |].
  rewrite Hm by (reflexivity || (apply IsZero_false; lia)).
  rewrite hostCpuMaximum_exact by assumption.
  split; [reflexivity | apply clampCpuMaximum_range].
Qed.

(** C5, refuted at the largest [int64] limit under Hyper-V isolation: the
    recomputed [cpuMaximum] is -10000, the returned [CpuMaximum] is 1. *)
Lemma C5_counterexample_hyperv_clamped :
  cpuMaximumBeforeClamp (sampleEnv 4 plainSc)
    (quantityOf Int64.max_signed 0) true runtimeapi.zeroResources []
  = (Return
       (runtimeapi.setCpuCount (-9223372036854774) runtimeapi.zeroResources,
        -10000), [])
  /\ hypervCpuMaximum Int64.max_signed = -10000
  /\ generateWindowsContainerConfig (sampleEnv 4 plainSc)
       (containerWith 0 Int64.max_signed 0) hypervPod None EmptyString []
     = (Return
          (runtimeapi.mkConfig
             (runtimeapi.mkResources 10000 (-9223372036854774) 1 0)
             runtimeapi.zeroSecurityContext), []).
Proof. repeat split; vm_compute; reflexivity. Qed.

(** C5 as amended.  The clamp into [1, 10000] comes after the Hyper-V
    override and is applied under both isolation modes.  For a CPU limit
    above zero under Hyper-V isolation the returned [CpuMaximum] is the
    clamp of the recomputed value; when the limit is at most 2^63 - 1000
    the recomputed value already lies in [10, 10000] and is returned as it
    is. *)
Theorem C5_clamp_follows_hyperv_override
    (env : Environment) (container : v1.Container) (pod : v1.Pod)
    (uid : option Z) (username : string) (log : list Warning) :
  Int64.in_range (MilliValue (v1.Cpu (v1.Limits (v1.Resources container)))) ->
  0 < MilliValue (v1.Cpu (v1.Limits (v1.Resources container))) ->
  0 < NumCPU env ->
  (forall hv r,
     returns
       (applyCpuLimit env (v1.Cpu (v1.Limits (v1.Resources container))) hv r
          log)
       (fun r' => 1 <= runtimeapi.CpuMaximum r' <= 10000))
  /\ (ShouldIsolatedByHyperV env (v1.Annotations pod) = true ->
      v1.RunAsUser (DetermineEffectiveSecurityContext env pod container)
      = None ->
      returns
        (generateWindowsContainerConfig env container pod uid username log)
        (fun wc =>
           let milli :=
             MilliValue (v1.Cpu (v1.Limits (v1.Resources container))) in
           let r := runtimeapi.Resources wc in
           runtimeapi.CpuMaximum r = clampCpuMaximum (hypervCpuMaximum milli)
           /\ (milli <= Int64.max_signed - 999 ->
               10 <= hypervCpuMaximum milli <= 10000
               /\ runtimeapi.CpuMaximum r = hypervCpuMaximum milli))).
Proof.
  set (milli := MilliValue (v1.Cpu (v1.Limits (v1.Resources container)))).
  intros Hr HL HN. split.
  - intros hv r. destruct hv.
    + rewrite applyCpuLimit_hyperv by (fold milli; lia).
      eexists _, _. split; [reflexivity |]. cbn.
      apply clampCpuMaximum_range.
    + rewrite applyCpuLimit_default by (fold milli; lia).
      eexists _, _. split; [reflexivity |]. cbn.
      apply clampCpuMaximum_range.
  - intros Hhv Hsc.
    destruct (generate_hyperv env container pod uid username log Hhv)
      as (r1 & Hgen & _ & _ & Hlim); [right; lia |].
    fold milli in Hlim. destruct Hlim as [Hc Hm]; [apply IsZero_false; fold milli; lia |].
    assert (Hnz : (hypervCpuCount milli =? 0) = false)
      by (apply Z.eqb_neq; now apply hypervCpuCount_nonzero).
    rewrite Hnz in Hm.
    unfold finish in Hgen. rewrite Hsc in Hgen.
    eexists _, _. split; [exact Hgen |]. cbn.
    destruct (applyMemoryLimit_cpu (v1.Limits (v1.Resources container)) r1)
      as (_ & _ & ->).
    split; [exact Hm |].
    intros Hsmall. fold milli in Hsmall.
    pose proof (hypervCpuCount_ceil milli
                  ltac:(unfold Int64.max_signed; lia)) as Hceil.
    pose proof (ceilDiv_spec milli 1000 ltac:(lia)) as Hspec.
    destruct (hypervCpuMaximum_exact milli Hr HL Hceil ltac:(lia))
      as [Hmax Hq].
    rewrite times_10000_div_1000 in Hmax.
    assert (10 <= hypervCpuMaximum milli <= 10000) by lia.
    split; [assumption |].
    rewrite Hm. apply clampCpuMaximum_inside. lia.
Qed.

(** C8, refuted at a limit of 2500 millicores on a host with four CPUs under
    Default isolation: the shares computed from the limit are positive, so
    the returned [CpuMaximum] is 0, outside [1, 10000]. *)
Lemma C8_counterexample_shares_clear_maximum :
  generateWindowsContainerConfig (sampleEnv 4 plainSc)
    (containerWith 0 2500 0) defaultPod None EmptyString []
  = (Return
       (runtimeapi.mkConfig (runtimeapi.mkResources 2500 0 0 0)
          runtimeapi.zeroSecurityContext), [CPUSharesOverCPUMaximum])
  /\ ~ (1 <= runtimeapi.CpuMaximum (runtimeapi.mkResources 2500 0 0 0)
        <= 10000).
Proof. split; [vm_compute; reflexivity | cbn; lia]. Qed.

(** ** The theorems at concrete inputs *)

Lemma sampleShares_nonneg (milliCPU : Z) (hyperv : bool) :
  0 <= sampleShares milliCPU hyperv.
Proof. unfold sampleShares. lia. Defined.

Lemma in_range_2500 : Int64.in_range 2500.
Proof. unfold Int64.in_range, Int64.min_signed, Int64.max_signed. lia. Defined.

Lemma C1_witness :
  returns
    (generateWindowsContainerConfig (sampleEnv 4 plainSc)
       (containerWith 500 2500 1024) defaultPod None EmptyString [])
    (fun wc =>
       let r := runtimeapi.Resources wc in
       (nonZeroCount [runtimeapi.CpuCount r; runtimeapi.CpuShares r;
                      runtimeapi.CpuMaximum r] <= 1)%nat).
Proof.
  apply (C1_default_controls_mutually_exclusive (sampleEnv 4 plainSc)
           (containerWith 500 2500 1024) defaultPod None EmptyString []).
  - exact sampleShares_nonneg.
  - reflexivity.
  - reflexivity.
  - reflexivity.
Defined.

Lemma C2_witness :
  0 < 3
  /\ cpuMaximumBeforeClamp (sampleEnv 4 plainSc) (quantityOf 2500 0) true
       runtimeapi.zeroResources []
     = (Return (runtimeapi.setCpuCount 3 runtimeapi.zeroResources, 8330), [])
  /\ exactHypervCpuMaximum 2500 3 - 10 < 8330 <= exactHypervCpuMaximum 2500 3.
Proof.
  apply (C2_hyperv_cpu_maximum_divides_first (sampleEnv 4 plainSc)
           (quantityOf 2500 0) runtimeapi.zeroResources []).
  - cbn. unfold Int64.max_signed. lia.
  - reflexivity.
Defined.

Lemma hyperv_cpu_count_at_2500 :
  returns
    (generateWindowsContainerConfig (sampleEnv 4 plainSc)
       (containerWith 0 2500 0) hypervPod None EmptyString [])
    (fun wc =>
       runtimeapi.CpuCount (runtimeapi.Resources wc) = 3
       /\ runtimeapi.CpuMaximum (runtimeapi.Resources wc) = 8330).
Proof.
  destruct (hyperv_cpu_count_and_override_in_range (sampleEnv 4 plainSc)
              (containerWith 0 2500 0) hypervPod None EmptyString [])
    as [_ (wc & log' & Hgen & Hcount & _ & Hmax)].
  - cbn. unfold Int64.max_signed. lia.
  - reflexivity.
  - reflexivity.
  - reflexivity.
  - exists wc, log'. split; [exact Hgen |].
    cbn in Hcount, Hmax. split; [exact Hcount |].
    rewrite Hmax, Hcount. reflexivity.
Defined.

Lemma default_cpu_maximum_at_2500 :
  returns
    (cpuControlsBeforePrecedence (sampleEnv 4 plainSc)
       (quantityOf 0 0) (quantityOf 2500 0) false runtimeapi.zeroResources [])
    (fun r =>
       runtimeapi.CpuMaximum r = 6250
       /\ 1 <= runtimeapi.CpuMaximum r <= 10000).
Proof.
  apply (default_cpu_maximum_formula_in_range (sampleEnv 4 plainSc)
           (containerWith 0 2500 0) defaultPod []).
  - reflexivity.
  - cbn. unfold Int64.max_signed. lia.
  - reflexivity.
  - reflexivity.
Defined.

Lemma C5_witness :
  returns
    (generateWindowsContainerConfig (sampleEnv 4 plainSc)
       (containerWith 0 2500 0) hypervPod None EmptyString [])
    (fun wc =>
       runtimeapi.CpuMaximum (runtimeapi.Resources wc)
       = hypervCpuMaximum 2500).
Proof.
  destruct (C5_clamp_follows_hyperv_override (sampleEnv 4 plainSc)
              (containerWith 0 2500 0) hypervPod None EmptyString []
              in_range_2500 eq_refl eq_refl)
    as [_ Hout].
  destruct (Hout eq_refl eq_refl) as (wc & log' & Hgen & _ & Hsmall).
  exists wc, log'. split; [exact Hgen |].
  apply Hsmall. cbn. unfold Int64.max_signed. lia.
Defined.

Lemma C6_witness :
  fst (generateWindowsContainerConfig
         (sampleEnv 4 (v1.mkSecurityContext None (Some 1000)))
         (containerWith 500 2500 1024) defaultPod None EmptyString [])
  = Error (ErrRunAsUidNotSupported 1000).
Proof.
  destruct (C6_error_iff_run_as_user
              (sampleEnv 4 (v1.mkSecurityContext None (Some 1000)))
              (containerWith 500 2500 1024) defaultPod None EmptyString []
              eq_refl)
    as (_ & Herr & _).
  exact (Herr 1000 eq_refl).
Defined.

Lemma C7_witness :
  returns
    (generateWindowsContainerConfig
       (sampleEnv 4
          (v1.mkSecurityContext
             (Some (v1.mkWindowsOptions None (Some "bob"%string))) None))
       (containerWith 0 0 0) defaultPod None "alice"%string [])
    (fun wc =>
       runtimeapi.RunAsUsername (runtimeapi.SecurityContext wc)
       = "bob"%string).
Proof.
  destruct (C7_windows_run_as_user_name_wins
              (sampleEnv 4
                 (v1.mkSecurityContext
                    (Some (v1.mkWindowsOptions None (Some "bob"%string)))
                    None))
              (containerWith 0 0 0) defaultPod None "alice"%string []
              (v1.mkWindowsOptions None (Some "bob"%string)) "bob"%string
              eq_refl eq_refl)
    as [_ Hret].
  exact (Hret eq_refl eq_refl).
Defined.

Lemma C8_witness :
  returns
    (generateWindowsContainerConfig (sampleEnv 4 plainSc)
       (containerWith 0 2500 0) defaultPod None EmptyString [])
    (fun wc =>
       runtimeapi.CpuShares (runtimeapi.Resources wc) = 2500
       /\ runtimeapi.CpuMaximum (runtimeapi.Resources wc) = 0).
Proof.
  destruct (C8_default_cpu_maximum_zero_or_in_range (sampleEnv 4 plainSc)
              (containerWith 0 2500 0) defaultPod None EmptyString []
              eq_refl eq_refl eq_refl eq_refl)
    as [_ (wc & log' & Hgen & Hshares & Hzero & _)].
  exists wc, log'. split; [exact Hgen |].
  split; [exact Hshares | exact (Hzero eq_refl)].
Defined.

Lemma C9_witness :
  returns
    (generateWindowsContainerConfig (sampleEnv 4 plainSc)
       (containerWith 0 0 0) defaultPod None EmptyString [])
    (fun wc => runtimeapi.CpuShares (runtimeapi.Resources wc) = 0).
Proof.
  destruct (C9_cpu_shares_limit_then_request (sampleEnv 4 plainSc)
              (containerWith 0 0 0) defaultPod None EmptyString [] eq_refl)
    as [_ Hzero].
  exact (Hzero eq_refl eq_refl eq_refl eq_refl).
Defined.

Lemma C10_witness :
  returns
    (generateWindowsContainerConfig (sampleEnv 4 plainSc)
       (containerWith 500 2500 1024) defaultPod None EmptyString [])
    (fun wc => runtimeapi.CpuCount (runtimeapi.Resources wc) = 0).
Proof.
  destruct (C10_default_cpu_count_branch_dead (sampleEnv 4 plainSc)
              (containerWith 500 2500 1024) defaultPod None EmptyString []
              eq_refl eq_refl)
    as [Hret _].
  exact (Hret eq_refl).
Defined.

(** ** Further properties: panics, warnings and the fields left alone *)

Lemma resolveMutuallyExclusive_memory hv r log r' log' :
  resolveMutuallyExclusive hv r log = (Return r', log') ->
  runtimeapi.MemoryLimitInBytes r' = runtimeapi.MemoryLimitInBytes r.
Proof.
  unfold resolveMutuallyExclusive, bind, Warningf, ret.
  destruct hv; cbn [negb].
  - intros [= <- _]. reflexivity.
  - destruct (0 <? runtimeapi.CpuCount r).
    + destruct (0 <? runtimeapi.CpuShares r); cbn;
        destruct (0 <? runtimeapi.CpuMaximum r); cbn;
        intros [= <- _]; reflexivity.
    + destruct (0 <? runtimeapi.CpuShares r);
        [destruct (0 <? runtimeapi.CpuMaximum r) |]; cbn;
        intros [= <- _]; reflexivity.
Qed.

Lemma generate_panics_without_host
    (env : Environment) (container : v1.Container) (pod : v1.Pod)
    (uid : option Z) (username : string) (log : list Warning) :
  IsZero (v1.Cpu (v1.Limits (v1.Resources container))) = false ->
  NumCPU env = 0 ->
  generateWindowsContainerConfig env container pod uid username log
  = (Panic IntegerDivideByZero, log).
Proof.
  intros HL HN.
  unfold generateWindowsContainerConfig, cpuControlsBeforePrecedence,
    applyCpuLimit, bind.
  rewrite HL. cbn [negb].
  now rewrite cpuMaximumBeforeClamp_no_host.
Qed.

(** The stages behind a call that does not divide by zero: the controls on
    reaching the precedence step, with the memory limit still unset, and
    the controls after it. *)
Lemma generate_stages
    (env : Environment) (container : v1.Container) (pod : v1.Pod)
    (uid : option Z) (username : string) (log : list Warning) :
  IsZero (v1.Cpu (v1.Limits (v1.Resources container))) = true
  \/ NumCPU env <> 0 ->
  exists r0 r1 log1,
    cpuControlsBeforePrecedence env
      (v1.Cpu (v1.Requests (v1.Resources container)))
      (v1.Cpu (v1.Limits (v1.Resources container)))
      (ShouldIsolatedByHyperV env (v1.Annotations pod))
      runtimeapi.zeroResources log = (Return r0, log)
    /\ resolveMutuallyExclusive
         (ShouldIsolatedByHyperV env (v1.Annotations pod)) r0 log
       = (Return r1, log1)
    /\ generateWindowsContainerConfig env container pod uid username log
       = finish env container pod username r1 log1
    /\ runtimeapi.MemoryLimitInBytes r1 = 0.
Proof.
  intros HN.
  set (hv := ShouldIsolatedByHyperV env (v1.Annotations pod)).
  assert (Hr0 : exists r0,
             cpuControlsBeforePrecedence env
               (v1.Cpu (v1.Requests (v1.Resources container)))
               (v1.Cpu (v1.Limits (v1.Resources container)))
               hv runtimeapi.zeroResources log = (Return r0, log)
             /\ runtimeapi.MemoryLimitInBytes r0 = 0).
  { unfold cpuControlsBeforePrecedence, bind.
    destruct (IsZero (v1.Cpu (v1.Limits (v1.Resources container)))) eqn:HL.
    - rewrite applyCpuLimit_unset by assumption.
      eexists; split; reflexivity.
    - destruct HN as [HN | HN]; [discriminate |].
      destruct hv.
      + rewrite applyCpuLimit_set_hyperv by assumption.
        eexists; split; reflexivity.
      + rewrite applyCpuLimit_set_default by assumption.
        eexists; split; reflexivity. }
  destruct Hr0 as (r0 & Hr0 & Hmem0).
  assert (Hr1 : exists r1 log1,
             resolveMutuallyExclusive hv r0 log = (Return r1, log1)).
  { destruct hv.
    - rewrite resolveMutuallyExclusive_hyperv. eauto.
    - unfold resolveMutuallyExclusive, bind, Warningf, ret. cbn [negb].
      destruct (0 <? runtimeapi.CpuCount r0).
      + destruct (0 <? runtimeapi.CpuShares r0); cbn;
          destruct (0 <? runtimeapi.CpuMaximum r0); cbn; eauto.
      + destruct (0 <? runtimeapi.CpuShares r0);
          [destruct (0 <? runtimeapi.CpuMaximum r0) |]; cbn; eauto. }
  destruct Hr1 as (r1 & log1 & Hr1).
  exists r0, r1, log1. repeat split; try assumption.
  - unfold finish. now apply generate_from_stages with (r0 := r0).
  - rewrite (resolveMutuallyExclusive_memory _ _ _ _ _ Hr1). exact Hmem0.
Qed.

(** X1.  The function panics with an integer division by zero exactly when
    the CPU limit is not zero, by the [IsZero] test of line 57, and the host
    reports no CPU; it has then logged nothing.  The division by [cpuCount]
    of line 68 never panics. *)
Theorem X1_panic_iff_limit_and_no_host_cpu
    (env : Environment) (container : v1.Container) (pod : v1.Pod)
    (uid : option Z) (username : string) (log : list Warning) :
  ((exists p, fst (generateWindowsContainerConfig env container pod uid
                     username log) = Panic p)
   <-> IsZero (v1.Cpu (v1.Limits (v1.Resources container))) = false
       /\ NumCPU env = 0)
  /\ (forall p log',
        generateWindowsContainerConfig env container pod uid username log
        = (Panic p, log') ->
        p = IntegerDivideByZero /\ log' = log).
Proof.
  destruct (IsZero (v1.Cpu (v1.Limits (v1.Resources container)))) eqn:HL;
    [| destruct (Z.eq_dec (NumCPU env) 0) as [HN | HN]].
  - destruct (generate_finishes env container pod uid username log)
      as (r1 & log1 & Hgen); [now left |].
    rewrite Hgen. unfold finish.
    destruct (v1.RunAsUser _); cbn; split;
      try (split; [intros [p H]; discriminate | intros [H _]; discriminate]);
      intros p log' H; discriminate.
  - rewrite generate_panics_without_host by assumption. cbn. split.
    + split; [auto | eauto].
    + intros p log' [= <- <-]. auto.
  - destruct (generate_finishes env container pod uid username log)
      as (r1 & log1 & Hgen); [now right |].
    rewrite Hgen. unfold finish.
    destruct (v1.RunAsUser _); cbn; split;
      try (split; [intros [p H]; discriminate | intros [_ H]; contradiction]);
      intros p log' H; discriminate.
Qed.

(** The warnings of a call that does not divide by zero. *)
Lemma generate_logged
    (env : Environment) (container : v1.Container) (pod : v1.Pod)
    (uid : option Z) (username : string) (log : list Warning) :
  IsZero (v1.Cpu (v1.Limits (v1.Resources container))) = true
  \/ NumCPU env <> 0 ->
  snd (generateWindowsContainerConfig env container pod uid username log)
  = log ++
    (if negb (ShouldIsolatedByHyperV env (v1.Annotations pod))
        && negb (IsZero (v1.Cpu (v1.Limits (v1.Resources container))))
        && (0 <? computeCpuShares env
                   (v1.Cpu (v1.Requests (v1.Resources container)))
                   (v1.Cpu (v1.Limits (v1.Resources container)))
                   (ShouldIsolatedByHyperV env (v1.Annotations pod)))
     then [CPUSharesOverCPUMaximum] else []).
Proof.
  intros HN.
  destruct (generate_stages env container pod uid username log HN)
    as (r0 & r1 & log1 & Hr0 & Hr1 & Hgen & _).
  assert (Hsnd : snd (generateWindowsContainerConfig env container pod uid
                        username log) = log1).
  { rewrite Hgen. unfold finish. destruct (v1.RunAsUser _); reflexivity. }
  rewrite Hsnd. clear Hsnd Hgen.
  destruct (ShouldIsolatedByHyperV env (v1.Annotations pod)) eqn:Hhv.
  - rewrite resolveMutuallyExclusive_hyperv in Hr1. injection Hr1 as _ <-.
    cbn. now rewrite app_nil_r.
  - destruct (cpuControlsBeforePrecedence_returns env
                (v1.Cpu (v1.Requests (v1.Resources container)))
                (v1.Cpu (v1.Limits (v1.Resources container)))
                false runtimeapi.zeroResources log HN)
      as (r0' & Hr0' & Hs & Hc & Hm & _ & Hz).
    rewrite Hr0 in Hr0'. injection Hr0' as <-.
    rewrite resolveMutuallyExclusive_no_count in Hr1
      by (rewrite (Hc eq_refl); cbn; lia).
    rewrite Hs in Hr1. cbn [negb andb].
    destruct (IsZero (v1.Cpu (v1.Limits (v1.Resources container)))) eqn:HL;
      cbn [negb andb].
    + destruct (Hz eq_refl) as [_ Hm0]. cbn in Hm0.
      rewrite Hm0, andb_false_r in Hr1. injection Hr1 as _ <-.
      now rewrite app_nil_r.
    + rewrite (Hm eq_refl eq_refl) in Hr1.
      pose proof (clampCpuMaximum_range
                    (hostCpuMaximum env
                       (MilliValue
                          (v1.Cpu (v1.Limits (v1.Resources container)))))).
      assert (Hpos : (0 <? clampCpuMaximum
                             (hostCpuMaximum env
                                (MilliValue
                                   (v1.Cpu
                                      (v1.Limits (v1.Resources container))))))
                     = true) by (apply Z.ltb_lt; lia).
      rewrite Hpos, andb_true_r in Hr1.
      destruct (0 <? computeCpuShares env _ _ false).
      * now injection Hr1 as _ <-.
      * injection Hr1 as _ <-. now rewrite app_nil_r.
Qed.

(** X2.  With a CPU limit that is zero, by the [IsZero] test of line 57,
    the function never reads the host CPU count: whatever that count is,
    zero included, and under either isolation mode, it returns with
    [CpuCount] and [CpuMaximum] both 0 and logs nothing. *)
Theorem X2_no_limit_no_count_no_maximum
    (env : Environment) (container : v1.Container) (pod : v1.Pod)
    (uid : option Z) (username : string) (log : list Warning) :
  IsZero (v1.Cpu (v1.Limits (v1.Resources container))) = true ->
  v1.RunAsUser (DetermineEffectiveSecurityContext env pod container) = None ->
  exists wc,
    generateWindowsContainerConfig env container pod uid username log
    = (Return wc, log)
    /\ runtimeapi.CpuCount (runtimeapi.Resources wc) = 0
    /\ runtimeapi.CpuMaximum (runtimeapi.Resources wc) = 0.
Proof.
  intros HL Hsc.
  pose proof (generate_logged env container pod uid username log
                (or_introl HL)) as Hlog.
  rewrite HL in Hlog. cbn [negb andb] in Hlog.
  rewrite andb_false_r, app_nil_r in Hlog.
  destruct (ShouldIsolatedByHyperV env (v1.Annotations pod)) eqn:Hhv.
  - destruct (generate_hyperv env container pod uid username log Hhv)
      as (r1 & Hgen & _ & Hz & _); [now left |].
    destruct (Hz HL) as [Hc Hm].
    unfold finish in Hgen. rewrite Hsc in Hgen.
    eexists. split; [exact Hgen |]. cbn.
    destruct (applyMemoryLimit_cpu (v1.Limits (v1.Resources container)) r1)
      as (-> & _ & ->). auto.
  - destruct (generate_default env container pod uid username log Hhv)
      as (r1 & log1 & Hgen & Hc & Hs & Hm & _); [now left |].
    assert (Hm0 : runtimeapi.CpuMaximum r1 = 0).
    { rewrite Hm, HL. now destruct (0 <? _). }
    unfold finish in Hgen. rewrite Hsc in Hgen.
    rewrite Hgen in Hlog. cbn in Hlog. subst log1.
    eexists. split; [exact Hgen |]. cbn.
    destruct (applyMemoryLimit_cpu (v1.Limits (v1.Resources container)) r1)
      as (-> & _ & ->). auto.
Qed.

(** X3.  A call that does not panic logs at most one warning, the one of
    line 103: it is logged exactly under Default isolation with a CPU limit
    that is not zero, by the [IsZero] test of line 57, and a positive
    number of shares, and that whether the call then returns a
    configuration or the [RunAsUser] error.  A limit that is not zero and
    has a [MilliValue] of 0 counts as a limit here. *)
Theorem X3_only_shares_over_maximum_is_logged
    (env : Environment) (container : v1.Container) (pod : v1.Pod)
    (uid : option Z) (username : string) (log : list Warning) :
  IsZero (v1.Cpu (v1.Limits (v1.Resources container))) = true
  \/ NumCPU env <> 0 ->
  (snd (generateWindowsContainerConfig env container pod uid username log)
   = log
   \/ snd (generateWindowsContainerConfig env container pod uid username log)
      = log ++ [CPUSharesOverCPUMaximum])
  /\ (snd (generateWindowsContainerConfig env container pod uid username log)
      = log ++ [CPUSharesOverCPUMaximum]
      <-> ShouldIsolatedByHyperV env (v1.Annotations pod) = false
          /\ IsZero (v1.Cpu (v1.Limits (v1.Resources container))) = false
          /\ 0 < computeCpuShares env
                   (v1.Cpu (v1.Requests (v1.Resources container)))
                   (v1.Cpu (v1.Limits (v1.Resources container))) false).
Proof.
  intros HN.
  rewrite (generate_logged env container pod uid username log HN).
  assert (Hne : log ++ [] <> log ++ [CPUSharesOverCPUMaximum]).
  { intros H. apply app_inv_head in H. discriminate. }
  destruct (ShouldIsolatedByHyperV env (v1.Annotations pod));
    destruct (IsZero (v1.Cpu (v1.Limits (v1.Resources container))));
    cbn [negb andb];
    try (split; [left; apply app_nil_r
                | split; [intros H; now apply Hne in H
                         | intros (H1 & H2 & _); discriminate]]).
  destruct (Z.ltb_spec 0 (computeCpuShares env
                            (v1.Cpu (v1.Requests (v1.Resources container)))
                            (v1.Cpu (v1.Limits (v1.Resources container)))
                            false)).
  - split; [right; reflexivity | split; auto].
  - split; [left; apply app_nil_r |].
    split; [intros H'; now apply Hne in H' | intros (_ & _ & H'); lia].
Qed.

(** X4.  The returned [MemoryLimitInBytes] is the value of the memory limit,
    zero for a limit that is not set, whatever the CPU quantities and the
    isolation mode are. *)
Theorem X4_memory_limit_passed_through
    (env : Environment) (container : v1.Container) (pod : v1.Pod)
    (uid : option Z) (username : string) (log : list Warning) :
  IsZero (v1.Cpu (v1.Limits (v1.Resources container))) = true
  \/ NumCPU env <> 0 ->
  v1.RunAsUser (DetermineEffectiveSecurityContext env pod container) = None ->
  returns (generateWindowsContainerConfig env container pod uid username log)
    (fun wc =>
       runtimeapi.MemoryLimitInBytes (runtimeapi.Resources wc)
       = Value (v1.Memory (v1.Limits (v1.Resources container)))).
Proof.
  intros HN Hsc.
  destruct (generate_stages env container pod uid username log HN)
    as (r0 & r1 & log1 & _ & _ & Hgen & Hmem).
  unfold finish in Hgen. rewrite Hsc in Hgen.
  eexists _, _. split; [exact Hgen |]. cbn.
  unfold applyMemoryLimit.
  destruct (Z.eqb_spec (Value (v1.Memory (v1.Limits (v1.Resources container))))
              0) as [Hz | Hz]; cbn.
  - now rewrite Hmem, Hz.
  - reflexivity.
Qed.

(** X5.  In a returned configuration the credential spec is the
    [GMSACredentialSpec] of the effective security context when the
    [WindowsGMSA] gate is on and the spec is there, and is empty otherwise;
    the user name set before it and the override made after it leave it
    alone. *)
Theorem X5_credential_spec_needs_gate
    (env : Environment) (container : v1.Container) (pod : v1.Pod)
    (uid : option Z) (username : string) (log : list Warning) :
  IsZero (v1.Cpu (v1.Limits (v1.Resources container))) = true
  \/ NumCPU env <> 0 ->
  v1.RunAsUser (DetermineEffectiveSecurityContext env pod container) = None ->
  returns (generateWindowsContainerConfig env container pod uid username log)
    (fun wc =>
       let spec := runtimeapi.CredentialSpec (runtimeapi.SecurityContext wc) in
       (WindowsGMSA env = false -> spec = EmptyString)
       /\ (v1.WindowsOptions
             (DetermineEffectiveSecurityContext env pod container) = None ->
           spec = EmptyString)
       /\ (forall opts,
             v1.WindowsOptions
               (DetermineEffectiveSecurityContext env pod container)
             = Some opts ->
             v1.GMSACredentialSpec opts = None -> spec = EmptyString)
       /\ (forall opts gmsa,
             WindowsGMSA env = true ->
             v1.WindowsOptions
               (DetermineEffectiveSecurityContext env pod container)
             = Some opts ->
             v1.GMSACredentialSpec opts = Some gmsa -> spec = gmsa)).
Proof.
  intros HN Hsc.
  destruct (generate_finishes env container pod uid username log HN)
    as (r1 & log1 & Hgen).
  unfold finish in Hgen. rewrite Hsc in Hgen.
  eexists _, _. split; [exact Hgen |]. cbn.
  unfold applyUserAndCredentialSpec.
  destruct (v1.WindowsOptions
              (DetermineEffectiveSecurityContext env pod container))
    as [opts |].
  - destruct (v1.GMSACredentialSpec opts) as [gmsa |] eqn:Hgmsa,
      (v1.RunAsUserName opts), (WindowsGMSA env), (nonEmpty username); cbn;
      repeat split; intros; congruence.
  - destruct (nonEmpty username); cbn; repeat split; intros; congruence.
Qed.

(** X6.  Without the Windows option [RunAsUserName], the returned
    [RunAsUsername] is the [username] the function was called with, empty
    or not. *)
Theorem X6_username_without_override
    (env : Environment) (container : v1.Container) (pod : v1.Pod)
    (uid : option Z) (username : string) (log : list Warning) :
  IsZero (v1.Cpu (v1.Limits (v1.Resources container))) = true
  \/ NumCPU env <> 0 ->
  v1.RunAsUser (DetermineEffectiveSecurityContext env pod container) = None ->
  (forall opts,
     v1.WindowsOptions (DetermineEffectiveSecurityContext env pod container)
     = Some opts -> v1.RunAsUserName opts = None) ->
  returns (generateWindowsContainerConfig env container pod uid username log)
    (fun wc =>
       runtimeapi.RunAsUsername (runtimeapi.SecurityContext wc) = username).
Proof.
  intros HN Hsc Hno.
  destruct (generate_finishes env container pod uid username log HN)
    as (r1 & log1 & Hgen).
  unfold finish in Hgen. rewrite Hsc in Hgen.
  eexists _, _. split; [exact Hgen |]. cbn.
  unfold applyUserAndCredentialSpec.
  destruct (v1.WindowsOptions
              (DetermineEffectiveSecurityContext env pod container))
    as [opts |].
  - rewrite (Hno opts eq_refl).
    destruct (v1.GMSACredentialSpec opts), (WindowsGMSA env), username;
      reflexivity.
  - destruct username; reflexivity.
Qed.

(** ** Further properties: the precedence step on every record *)

Lemma nonZeroCount_3 (a b c : Z) :
  nonZeroCount [a; b; c]
  = ((if (a =? 0)%Z then 0 else 1) + (if (b =? 0)%Z then 0 else 1)
     + (if (c =? 0)%Z then 0 else 1))%nat.
Proof.
  unfold nonZeroCount. cbn.
  destruct (a =? 0), (b =? 0), (c =? 0); reflexivity.
Qed.

(** X8.  Lines 87-107 on any record of non-negative controls, a positive
    [CpuCount] included (which this function never produces under Default
    isolation): under Default isolation at most one control is left
    non-zero, and it is the first non-zero one in the order CpuCount,
    CpuShares, CpuMaximum, with its value unchanged; one warning is logged
    for each control that is cleared, and the memory limit is not
    touched. *)
Theorem X8_precedence_keeps_first_control
    (r : runtimeapi.WindowsContainerResources) (log : list Warning) :
  0 <= runtimeapi.CpuCount r ->
  0 <= runtimeapi.CpuShares r ->
  0 <= runtimeapi.CpuMaximum r ->
  exists r' logged,
    resolveMutuallyExclusive false r log = (Return r', log ++ logged)
    /\ (nonZeroCount [runtimeapi.CpuCount r'; runtimeapi.CpuShares r';
                      runtimeapi.CpuMaximum r'] <= 1)%nat
    /\ runtimeapi.CpuCount r' = runtimeapi.CpuCount r
    /\ (runtimeapi.CpuCount r = 0 ->
        runtimeapi.CpuShares r' = runtimeapi.CpuShares r)
    /\ (runtimeapi.CpuCount r = 0 -> runtimeapi.CpuShares r = 0 ->
        runtimeapi.CpuMaximum r' = runtimeapi.CpuMaximum r)
    /\ runtimeapi.MemoryLimitInBytes r' = runtimeapi.MemoryLimitInBytes r
    /\ (List.length logged
        + nonZeroCount [runtimeapi.CpuCount r'; runtimeapi.CpuShares r';
                        runtimeapi.CpuMaximum r']
        = nonZeroCount [runtimeapi.CpuCount r; runtimeapi.CpuShares r;
                        runtimeapi.CpuMaximum r])%nat.
Proof.
  intros Hc Hs Hm.
  unfold resolveMutuallyExclusive, bind, Warningf, ret. cbn [negb].
  rewrite !nonZeroCount_3.
  destruct (Z.ltb_spec 0 (runtimeapi.CpuCount r)) as [Hc1 | Hc1];
    destruct (Z.ltb_spec 0 (runtimeapi.CpuShares r)) as [Hs1 | Hs1];
    cbn;
    destruct (Z.ltb_spec 0 (runtimeapi.CpuMaximum r)) as [Hm1 | Hm1];
    cbn.
  all: match goal with
       | |- exists r' logged, (Return ?x, (_ ++ [?a]) ++ [?b]) = _ /\ _ =>
           exists x, [a; b]; split; [now rewrite <- app_assoc |]
       | |- exists r' logged, (Return ?x, _ ++ [?a]) = _ /\ _ =>
           exists x, [a]; split; [reflexivity |]
       | |- exists r' logged, (Return ?x, _) = _ /\ _ =>
           exists x, []; split; [now rewrite app_nil_r |]
       end.
  all: cbn; rewrite ?nonZeroCount_3; cbn.
  all: destruct (Z.eqb_spec (runtimeapi.CpuCount r) 0);
    destruct (Z.eqb_spec (runtimeapi.CpuShares r) 0);
    destruct (Z.eqb_spec (runtimeapi.CpuMaximum r) 0);
    repeat split; intros; cbn; lia.
Qed.

(** X9.  The precedence step settles in one pass: run again on the record
    it has produced, under the same isolation mode, it changes nothing and
    logs nothing. *)
Theorem X9_precedence_idempotent
    (hv : bool) (r r' : runtimeapi.WindowsContainerResources)
    (log log' log2 : list Warning) :
  resolveMutuallyExclusive hv r log = (Return r', log') ->
  resolveMutuallyExclusive hv r' log2 = (Return r', log2).
Proof.
  unfold resolveMutuallyExclusive, bind, Warningf, ret.
  destruct hv; cbn [negb]; [reflexivity |].
  destruct (0 <? runtimeapi.CpuCount r) eqn:Hc.
  - destruct (0 <? runtimeapi.CpuShares r) eqn:Hs; cbn;
      destruct (0 <? runtimeapi.CpuMaximum r) eqn:Hm; cbn;
      intros [= <- _]; cbn; rewrite ?Hc, ?Hs, ?Hm; cbn;
      rewrite ?Hm; reflexivity.
  - destruct (0 <? runtimeapi.CpuShares r) eqn:Hs;
      [destruct (0 <? runtimeapi.CpuMaximum r) eqn:Hm |]; cbn;
      intros [= <- _]; cbn; rewrite ?Hc, ?Hs, ?Hm; reflexivity.
Qed.

(** ** Further properties: the numbers under each isolation mode *)

(** Under Hyper-V isolation, for a limit whose sum with 999 fits [int64]:
    the three controls of the returned configuration. *)
Lemma generate_hyperv_exact
    (env : Environment) (container : v1.Container) (pod : v1.Pod)
    (uid : option Z) (username : string) (log : list Warning) :
  0 < MilliValue (v1.Cpu (v1.Limits (v1.Resources container)))
    <= Int64.max_signed - 999 ->
  NumCPU env <> 0 ->
  ShouldIsolatedByHyperV env (v1.Annotations pod) = true ->
  v1.RunAsUser (DetermineEffectiveSecurityContext env pod container) = None ->
  exists wc,
    generateWindowsContainerConfig env container pod uid username log
    = (Return wc, log)
    /\ runtimeapi.CpuCount (runtimeapi.Resources wc)
       = ceilDiv (MilliValue (v1.Cpu (v1.Limits (v1.Resources container))))
           1000
    /\ runtimeapi.CpuMaximum (runtimeapi.Resources wc)
       = MilliValue (v1.Cpu (v1.Limits (v1.Resources container)))
         / ceilDiv (MilliValue (v1.Cpu (v1.Limits (v1.Resources container))))
             1000 * 10
    /\ runtimeapi.CpuShares (runtimeapi.Resources wc)
       = computeCpuShares env
           (v1.Cpu (v1.Requests (v1.Resources container)))
           (v1.Cpu (v1.Limits (v1.Resources container))) true.
Proof.
  set (milli := MilliValue (v1.Cpu (v1.Limits (v1.Resources container)))).
  intros HL HN Hhv Hsc.
  assert (Hr : Int64.in_range milli)
    by (unfold Int64.in_range, Int64.min_signed, Int64.max_signed in *; lia).
  pose proof (hypervCpuCount_ceil milli HL) as Hceil.
  pose proof (ceilDiv_spec milli 1000 ltac:(lia)) as Hspec.
  destruct (hypervCpuMaximum_exact milli Hr ltac:(lia) Hceil ltac:(lia))
    as [Hmax Hq].
  rewrite times_10000_div_1000 in Hmax.
  destruct (generate_hyperv env container pod uid username log Hhv)
    as (r1 & Hgen & Hs & _ & Hlim); [now right |].
  fold milli in Hlim. destruct Hlim as [Hc Hm]; [apply IsZero_false; fold milli; lia |].
  assert (Hnz : (hypervCpuCount milli =? 0) = false)
    by (apply Z.eqb_neq; lia).
  rewrite Hnz, Hmax in Hm.
  rewrite clampCpuMaximum_inside in Hm by lia.
  unfold finish in Hgen. rewrite Hsc in Hgen.
  eexists. split; [exact Hgen |]. cbn.
  destruct (applyMemoryLimit_cpu (v1.Limits (v1.Resources container)) r1)
    as (-> & -> & ->).
  rewrite Hc, Hm, Hceil. auto.
Qed.

(** X10.  Under Hyper-V isolation, for a CPU limit above zero whose sum with
    999 fits [int64], the virtual processors cover the limit with less than
    one to spare, and their capped capacity, [CpuCount] times [CpuMaximum]
    ten-thousandths, never exceeds the limit and falls short of it by less
    than one millicore per processor. *)
Theorem X10_hyperv_capacity_within_limit
    (env : Environment) (container : v1.Container) (pod : v1.Pod)
    (uid : option Z) (username : string) (log : list Warning) :
  0 < MilliValue (v1.Cpu (v1.Limits (v1.Resources container)))
    <= Int64.max_signed - 999 ->
  NumCPU env <> 0 ->
  ShouldIsolatedByHyperV env (v1.Annotations pod) = true ->
  v1.RunAsUser (DetermineEffectiveSecurityContext env pod container) = None ->
  returns (generateWindowsContainerConfig env container pod uid username log)
    (fun wc =>
       let milli :=
         MilliValue (v1.Cpu (v1.Limits (v1.Resources container))) in
       let count := runtimeapi.CpuCount (runtimeapi.Resources wc) in
       let maximum := runtimeapi.CpuMaximum (runtimeapi.Resources wc) in
       milli <= 1000 * count < milli + 1000
       /\ 10 * milli - 10 * count < count * maximum <= 10 * milli).
Proof.
  intros HL HN Hhv Hsc.
  destruct (generate_hyperv_exact env container pod uid username log
              HL HN Hhv Hsc) as (wc & Hgen & Hc & Hm & _).
  exists wc, log. split; [exact Hgen |]. cbv zeta.
  rewrite Hc, Hm.
  set (milli := MilliValue (v1.Cpu (v1.Limits (v1.Resources container)))) in *.
  pose proof (ceilDiv_spec milli 1000 ltac:(lia)) as Hspec.
  set (c := ceilDiv milli 1000) in *.
  assert (Hcpos : 0 < c) by lia.
  pose proof (Z.div_mod milli c ltac:(lia)).
  pose proof (Z.mod_pos_bound milli c Hcpos).
  nia.
Qed.

(** X11.  Under Hyper-V isolation a limit of [k] whole CPUs gives [k]
    virtual processors, each at the full 10000. *)
Theorem X11_hyperv_whole_cpus
    (env : Environment) (container : v1.Container) (pod : v1.Pod)
    (uid : option Z) (username : string) (log : list Warning) (k : Z) :
  0 < k ->
  MilliValue (v1.Cpu (v1.Limits (v1.Resources container))) = 1000 * k ->
  1000 * k <= Int64.max_signed - 999 ->
  NumCPU env <> 0 ->
  ShouldIsolatedByHyperV env (v1.Annotations pod) = true ->
  v1.RunAsUser (DetermineEffectiveSecurityContext env pod container) = None ->
  returns (generateWindowsContainerConfig env container pod uid username log)
    (fun wc =>
       runtimeapi.CpuCount (runtimeapi.Resources wc) = k
       /\ runtimeapi.CpuMaximum (runtimeapi.Resources wc) = 10000).
Proof.
  intros Hk HL Hfit HN Hhv Hsc.
  destruct (generate_hyperv_exact env container pod uid username log)
    as (wc & Hgen & Hc & Hm & _); try assumption; [lia |].
  exists wc, log. split; [exact Hgen |].
  rewrite Hc, Hm, HL.
  pose proof (ceilDiv_spec (1000 * k) 1000 ltac:(lia)) as Hspec.
  assert (Hck : ceilDiv (1000 * k) 1000 = k) by lia.
  rewrite Hck. split; [reflexivity |].
  replace (1000 * k) with (1000 * k + 0) by lia.
  rewrite Z.mul_comm, Z.div_add_l by lia. cbn. lia.
Qed.

(** X12.  Under Hyper-V isolation a limit of at most one CPU gives one
    virtual processor, capped at ten times the limit in millicores. *)
Theorem X12_hyperv_at_most_one_cpu
    (env : Environment) (container : v1.Container) (pod : v1.Pod)
    (uid : option Z) (username : string) (log : list Warning) :
  0 < MilliValue (v1.Cpu (v1.Limits (v1.Resources container))) <= 1000 ->
  NumCPU env <> 0 ->
  ShouldIsolatedByHyperV env (v1.Annotations pod) = true ->
  v1.RunAsUser (DetermineEffectiveSecurityContext env pod container) = None ->
  returns (generateWindowsContainerConfig env container pod uid username log)
    (fun wc =>
       runtimeapi.CpuCount (runtimeapi.Resources wc) = 1
       /\ runtimeapi.CpuMaximum (runtimeapi.Resources wc)
          = 10 * MilliValue (v1.Cpu (v1.Limits (v1.Resources container)))).
Proof.
  intros HL HN Hhv Hsc.
  destruct (generate_hyperv_exact env container pod uid username log)
    as (wc & Hgen & Hc & Hm & _); try assumption;
    [unfold Int64.max_signed; lia |].
  exists wc, log. split; [exact Hgen |].
  rewrite Hc, Hm.
  pose proof (ceilDiv_spec
                (MilliValue (v1.Cpu (v1.Limits (v1.Resources container))))
                1000 ltac:(lia)) as Hspec.
  assert (Hc1 : ceilDiv
                  (MilliValue (v1.Cpu (v1.Limits (v1.Resources container))))
                  1000 = 1) by lia.
  rewrite Hc1, Z.div_1_r. split; lia.
Qed.

(** X13.  Under Hyper-V isolation the controls are not made exclusive: with
    a limit as in X10 and a number of shares that is not zero, the returned
    configuration has [CpuCount], [CpuShares] and [CpuMaximum] all set, and
    nothing is logged. *)
Theorem X13_hyperv_controls_coexist
    (env : Environment) (container : v1.Container) (pod : v1.Pod)
    (uid : option Z) (username : string) (log : list Warning) :
  0 < MilliValue (v1.Cpu (v1.Limits (v1.Resources container)))
    <= Int64.max_signed - 999 ->
  NumCPU env <> 0 ->
  ShouldIsolatedByHyperV env (v1.Annotations pod) = true ->
  v1.RunAsUser (DetermineEffectiveSecurityContext env pod container) = None ->
  computeCpuShares env (v1.Cpu (v1.Requests (v1.Resources container)))
    (v1.Cpu (v1.Limits (v1.Resources container))) true <> 0 ->
  exists wc,
    generateWindowsContainerConfig env container pod uid username log
    = (Return wc, log)
    /\ nonZeroCount
         [runtimeapi.CpuCount (runtimeapi.Resources wc);
          runtimeapi.CpuShares (runtimeapi.Resources wc);
          runtimeapi.CpuMaximum (runtimeapi.Resources wc)] = 3%nat.
Proof.
  intros HL HN Hhv Hsc Hshares.
  destruct (generate_hyperv_exact env container pod uid username log
              HL HN Hhv Hsc) as (wc & Hgen & Hc & Hm & Hs).
  exists wc. split; [exact Hgen |].
  rewrite nonZeroCount_3, Hc, Hm, Hs.
  set (milli := MilliValue (v1.Cpu (v1.Limits (v1.Resources container)))) in *.
  pose proof (ceilDiv_spec milli 1000 ltac:(lia)) as Hspec.
  assert (Hq : 1 <= milli / ceilDiv milli 1000)
    by (apply Z.div_le_lower_bound; nia).
  destruct (Z.eqb_spec (ceilDiv milli 1000) 0); [lia |].
  destruct (Z.eqb_spec (milli / ceilDiv milli 1000 * 10) 0); [lia |].
  destruct (Z.eqb_spec (computeCpuShares env
                          (v1.Cpu (v1.Requests (v1.Resources container)))
                          (v1.Cpu (v1.Limits (v1.Resources container))) true)
              0); [contradiction | reflexivity].
Qed.

Lemma hostCpuMaximum_tenfold (env : Environment) (milli : Z) :
  0 < milli -> 10000 * milli <= Int64.max_signed -> 0 < NumCPU env ->
  hostCpuMaximum env milli = 10 * milli / NumCPU env.
Proof.
  intros HL Hmax HN. rewrite hostCpuMaximum_exact by assumption.
  rewrite Z.div_div by lia.
  replace (10000 * milli) with (10 * milli * 1000) by lia.
  apply Z.div_mul_cancel_r; lia.
Qed.

Lemma clampCpuMaximum_monotone (a b : Z) :
  a <= b -> clampCpuMaximum a <= clampCpuMaximum b.
Proof.
  intros H. unfold clampCpuMaximum.
  destruct (Z.ltb_spec a 1), (Z.ltb_spec b 1); try lia;
    destruct (Z.ltb_spec 10000 a), (Z.ltb_spec 10000 b); lia.
Qed.

(** X14.  Under Default isolation, for a CPU limit above zero whose product
    by 10000 fits [int64] and a host CPU count above zero, the [CpuMaximum]
    held on reaching the precedence step is ten times the limit divided by
    the host CPU count, in one division, clamped into [1, 10000]: it is
    10000 exactly when the limit is at least the whole host, and 1 exactly
    when ten times the limit is less than twice the host CPU count. *)
Theorem X14_default_cpu_maximum_saturates
    (env : Environment) (cpuRequest cpuLimit : Quantity)
    (r : runtimeapi.WindowsContainerResources) (log : list Warning) :
  0 < MilliValue cpuLimit ->
  10000 * MilliValue cpuLimit <= Int64.max_signed ->
  0 < NumCPU env ->
  returns (cpuControlsBeforePrecedence env cpuRequest cpuLimit false r log)
    (fun r' =>
       runtimeapi.CpuMaximum r'
       = clampCpuMaximum (10 * MilliValue cpuLimit / NumCPU env)
       /\ (runtimeapi.CpuMaximum r' = 10000
           <-> 1000 * NumCPU env <= MilliValue cpuLimit)
       /\ (runtimeapi.CpuMaximum r' = 1
           <-> 10 * MilliValue cpuLimit < 2 * NumCPU env)).
Proof.
  intros HL Hmax HN.
  destruct (cpuControlsBeforePrecedence_returns env cpuRequest cpuLimit false
              r log) as (r0 & Hr0 & _ & _ & Hm & _); [right; lia |].
  eexists _, _. split; [exact Hr0 |].
  rewrite Hm by (reflexivity || (apply IsZero_false; lia)).
  rewrite hostCpuMaximum_tenfold by assumption.
  split; [reflexivity |].
  set (q := 10 * MilliValue cpuLimit / NumCPU env).
  assert (Hq1 : 10000 <= q <-> 1000 * NumCPU env <= MilliValue cpuLimit).
  { subst q. split; intros H.
    - pose proof (Z.mul_div_le (10 * MilliValue cpuLimit) (NumCPU env) HN).
      nia.
    - apply Z.div_le_lower_bound; lia. }
  assert (Hq2 : q <= 1 <-> 10 * MilliValue cpuLimit < 2 * NumCPU env).
  { subst q. split; intros H.
    - pose proof (Z.div_mod (10 * MilliValue cpuLimit) (NumCPU env)
                    ltac:(lia)).
      pose proof (Z.mod_pos_bound (10 * MilliValue cpuLimit) (NumCPU env) HN).
      nia.
    - assert (10 * MilliValue cpuLimit / NumCPU env < 2)
        by (apply Z.div_lt_upper_bound; lia).
      lia. }
  unfold clampCpuMaximum.
  destruct (Z.ltb_spec q 1); [| destruct (Z.ltb_spec 10000 q)];
    split; split; intros; lia.
Qed.

(** X15.  Under Default isolation, while the product by 10000 fits
    [int64], a larger CPU limit never gives a smaller [CpuMaximum] on the
    same host. *)
Theorem X15_default_cpu_maximum_monotone
    (env : Environment) (limit1 limit2 : Quantity)
    (r : runtimeapi.WindowsContainerResources) (log : list Warning) :
  0 < MilliValue limit1 <= MilliValue limit2 ->
  10000 * MilliValue limit2 <= Int64.max_signed ->
  0 < NumCPU env ->
  exists r1 r2,
    applyCpuLimit env limit1 false r log = (Return r1, log)
    /\ applyCpuLimit env limit2 false r log = (Return r2, log)
    /\ runtimeapi.CpuMaximum r1 <= runtimeapi.CpuMaximum r2.
Proof.
  intros HL Hmax HN.
  rewrite !applyCpuLimit_default by lia.
  eexists _, _. split; [reflexivity |]. split; [reflexivity |]. cbn.
  rewrite !hostCpuMaximum_tenfold by lia.
  apply clampCpuMaximum_monotone.
  apply Z.div_le_mono; lia.
Qed.

Lemma quot_nonpos (a b : Z) : a <= 0 -> 0 < b -> Z.quot a b <= 0.
Proof.
  intros Ha Hb. replace a with (- (- a)) by lia.
  rewrite Z.quot_opp_l by lia. rewrite Z.quot_div_nonneg by lia.
  assert (0 <= (- a) / b) by (apply Z.div_pos; lia). lia.
Qed.

(** X16.  A negative CPU limit is not rejected: under Default isolation,
    while its product by 10000 fits [int64], it gets the smallest
    [CpuMaximum], 1, on reaching the precedence step. *)
Theorem X16_default_negative_limit_gets_minimum
    (env : Environment) (cpuRequest cpuLimit : Quantity)
    (r : runtimeapi.WindowsContainerResources) (log : list Warning) :
  MilliValue cpuLimit < 0 ->
  Int64.min_signed <= 10000 * MilliValue cpuLimit ->
  0 < NumCPU env ->
  returns (cpuControlsBeforePrecedence env cpuRequest cpuLimit false r log)
    (fun r' => runtimeapi.CpuMaximum r' = 1).
Proof.
  intros HL Hmin HN.
  destruct (cpuControlsBeforePrecedence_returns env cpuRequest cpuLimit false
              r log) as (r0 & Hr0 & _ & _ & Hm & _); [right; lia |].
  eexists _, _. split; [exact Hr0 |].
  rewrite Hm by (reflexivity || (apply IsZero_false; lia)).
  assert (Hneg : hostCpuMaximum env (MilliValue cpuLimit) <= 0).
  { unfold hostCpuMaximum, Int64.mul.
    rewrite wrap_in_range
      by (unfold Int64.in_range, Int64.min_signed, Int64.max_signed in *; lia).
    pose proof (wrap_range
                  (Z.quot (10000 * MilliValue cpuLimit) (NumCPU env)))
      as Hq1.
    fold (Int64.quot (10000 * MilliValue cpuLimit) (NumCPU env)) in Hq1.
    rewrite (quot_in_range _ 1000 Hq1) by lia.
    apply quot_nonpos; [| lia].
    rewrite quot_in_range
      by (unfold Int64.in_range, Int64.min_signed, Int64.max_signed in *; lia).
    apply quot_nonpos; lia. }
  unfold clampCpuMaximum.
  destruct (Z.ltb_spec (hostCpuMaximum env (MilliValue cpuLimit)) 1); lia.
Qed.

(** ** The further properties at concrete inputs *)

Lemma X2_witness :
  exists wc,
    generateWindowsContainerConfig (sampleEnv 0 plainSc)
      (containerWith 500 0 1024) hypervPod None EmptyString []
    = (Return wc, [])
    /\ runtimeapi.CpuCount (runtimeapi.Resources wc) = 0
    /\ runtimeapi.CpuMaximum (runtimeapi.Resources wc) = 0.
Proof.
  exact (X2_no_limit_no_count_no_maximum (sampleEnv 0 plainSc)
           (containerWith 500 0 1024) hypervPod None EmptyString []
           eq_refl eq_refl).
Defined.

Lemma X3_witness :
  snd (generateWindowsContainerConfig (sampleEnv 4 plainSc)
         (containerWith 0 2500 0) defaultPod None EmptyString [])
  = [CPUSharesOverCPUMaximum].
Proof.
  destruct (X3_only_shares_over_maximum_is_logged (sampleEnv 4 plainSc)
              (containerWith 0 2500 0) defaultPod None EmptyString [])
    as [_ Hiff].
  - right. discriminate.
  - apply Hiff. repeat split; reflexivity.
Defined.

Lemma X4_witness :
  returns
    (generateWindowsContainerConfig (sampleEnv 4 plainSc)
       (containerWith 500 2500 1024) defaultPod None EmptyString [])
    (fun wc =>
       runtimeapi.MemoryLimitInBytes (runtimeapi.Resources wc) = 1024).
Proof.
  apply (X4_memory_limit_passed_through (sampleEnv 4 plainSc)
           (containerWith 500 2500 1024) defaultPod None EmptyString []).
  - right. discriminate.
  - reflexivity.
Defined.

Lemma X5_witness :
  returns
    (generateWindowsContainerConfig
       (sampleEnv 4
          (v1.mkSecurityContext
             (Some (v1.mkWindowsOptions (Some "spec"%string)
                      (Some "bob"%string))) None))
       (containerWith 0 0 0) defaultPod None "alice"%string [])
    (fun wc =>
       runtimeapi.CredentialSpec (runtimeapi.SecurityContext wc)
       = "spec"%string).
Proof.
  destruct (X5_credential_spec_needs_gate
              (sampleEnv 4
                 (v1.mkSecurityContext
                    (Some (v1.mkWindowsOptions (Some "spec"%string)
                             (Some "bob"%string))) None))
              (containerWith 0 0 0) defaultPod None "alice"%string []
              (or_introl eq_refl) eq_refl)
    as (wc & log' & Hgen & _ & _ & _ & Hspec).
  exists wc, log'. split; [exact Hgen |].
  exact (Hspec _ _ eq_refl eq_refl eq_refl).
Defined.

Lemma X6_witness :
  returns
    (generateWindowsContainerConfig (sampleEnv 4 plainSc)
       (containerWith 0 0 0) defaultPod None "alice"%string [])
    (fun wc =>
       runtimeapi.RunAsUsername (runtimeapi.SecurityContext wc)
       = "alice"%string).
Proof.
  apply (X6_username_without_override (sampleEnv 4 plainSc)
           (containerWith 0 0 0) defaultPod None "alice"%string []).
  - left. reflexivity.
  - reflexivity.
  - intros opts H. discriminate H.
Defined.

Lemma X8_witness :
  exists r' logged,
    resolveMutuallyExclusive false (runtimeapi.mkResources 5 2 7 64) []
    = (Return r', [] ++ logged)
    /\ (nonZeroCount [runtimeapi.CpuCount r'; runtimeapi.CpuShares r';
                      runtimeapi.CpuMaximum r'] <= 1)%nat
    /\ runtimeapi.CpuCount r' = 2.
Proof.
  destruct (X8_precedence_keeps_first_control
              (runtimeapi.mkResources 5 2 7 64) [])
    as (r' & logged & Hres & Hone & Hcount & _).
  - cbn. lia.
  - cbn. lia.
  - cbn. lia.
  - exists r', logged. auto.
Defined.

Lemma X9_witness :
  resolveMutuallyExclusive false (runtimeapi.mkResources 5 0 0 0) []
  = (Return (runtimeapi.mkResources 5 0 0 0), []).
Proof.
  exact (X9_precedence_idempotent false
           (runtimeapi.mkResources 5 0 7 0) (runtimeapi.mkResources 5 0 0 0)
           [] [CPUSharesOverCPUMaximum] [] eq_refl).
Defined.

Lemma limit_2500_fits : 0 < 2500 <= Int64.max_signed - 999.
Proof. unfold Int64.max_signed. lia. Defined.

Lemma four_not_zero : 4 <> 0.
Proof. discriminate. Defined.

Lemma X10_witness :
  returns
    (generateWindowsContainerConfig (sampleEnv 4 plainSc)
       (containerWith 0 2500 0) hypervPod None EmptyString [])
    (fun wc =>
       let count := runtimeapi.CpuCount (runtimeapi.Resources wc) in
       let maximum := runtimeapi.CpuMaximum (runtimeapi.Resources wc) in
       2500 <= 1000 * count < 2500 + 1000
       /\ 10 * 2500 - 10 * count < count * maximum <= 10 * 2500).
Proof.
  exact (X10_hyperv_capacity_within_limit (sampleEnv 4 plainSc)
           (containerWith 0 2500 0) hypervPod None EmptyString []
           limit_2500_fits four_not_zero eq_refl eq_refl).
Defined.

Lemma X11_witness :
  returns
    (generateWindowsContainerConfig (sampleEnv 4 plainSc)
       (containerWith 0 3000 0) hypervPod None EmptyString [])
    (fun wc =>
       runtimeapi.CpuCount (runtimeapi.Resources wc) = 3
       /\ runtimeapi.CpuMaximum (runtimeapi.Resources wc) = 10000).
Proof.
  apply (X11_hyperv_whole_cpus (sampleEnv 4 plainSc)
           (containerWith 0 3000 0) hypervPod None EmptyString [] 3).
  - reflexivity.
  - reflexivity.
  - unfold Int64.max_signed. lia.
  - exact four_not_zero.
  - reflexivity.
  - reflexivity.
Defined.

Lemma X12_witness :
  returns
    (generateWindowsContainerConfig (sampleEnv 4 plainSc)
       (containerWith 0 500 0) hypervPod None EmptyString [])
    (fun wc =>
       runtimeapi.CpuCount (runtimeapi.Resources wc) = 1
       /\ runtimeapi.CpuMaximum (runtimeapi.Resources wc) = 5000).
Proof.
  apply (X12_hyperv_at_most_one_cpu (sampleEnv 4 plainSc)
           (containerWith 0 500 0) hypervPod None EmptyString []).
  - cbn. lia.
  - exact four_not_zero.
  - reflexivity.
  - reflexivity.
Defined.

Lemma X13_witness :
  exists wc,
    generateWindowsContainerConfig (sampleEnv 4 plainSc)
      (containerWith 0 2500 0) hypervPod None EmptyString []
    = (Return wc, [])
    /\ nonZeroCount
         [runtimeapi.CpuCount (runtimeapi.Resources wc);
          runtimeapi.CpuShares (runtimeapi.Resources wc);
          runtimeapi.CpuMaximum (runtimeapi.Resources wc)] = 3%nat.
Proof.
  apply (X13_hyperv_controls_coexist (sampleEnv 4 plainSc)
           (containerWith 0 2500 0) hypervPod None EmptyString []).
  - exact limit_2500_fits.
  - exact four_not_zero.
  - reflexivity.
  - reflexivity.
  - vm_compute. discriminate.
Defined.

Lemma X14_witness :
  returns
    (cpuControlsBeforePrecedence (sampleEnv 4 plainSc) (quantityOf 0 0)
       (quantityOf 4000 0) false runtimeapi.zeroResources [])
    (fun r' => runtimeapi.CpuMaximum r' = 10000).
Proof.
  destruct (X14_default_cpu_maximum_saturates (sampleEnv 4 plainSc)
              (quantityOf 0 0) (quantityOf 4000 0)
              runtimeapi.zeroResources [])
    as (r' & log' & Hret & _ & Hfull & _).
  - reflexivity.
  - cbn. unfold Int64.max_signed. lia.
  - reflexivity.
  - exists r', log'. split; [exact Hret |].
    apply Hfull. cbn. lia.
Defined.

Lemma X15_witness :
  exists r1 r2,
    applyCpuLimit (sampleEnv 4 plainSc) (quantityOf 500 0) false
      runtimeapi.zeroResources [] = (Return r1, [])
    /\ applyCpuLimit (sampleEnv 4 plainSc) (quantityOf 2500 0) false
         runtimeapi.zeroResources [] = (Return r2, [])
    /\ runtimeapi.CpuMaximum r1 <= runtimeapi.CpuMaximum r2.
Proof.
  apply (X15_default_cpu_maximum_monotone (sampleEnv 4 plainSc)
           (quantityOf 500 0) (quantityOf 2500 0)
           runtimeapi.zeroResources []).
  - cbn. lia.
  - cbn. unfold Int64.max_signed. lia.
  - reflexivity.
Defined.

Lemma X16_witness :
  returns
    (cpuControlsBeforePrecedence (sampleEnv 4 plainSc) (quantityOf 0 0)
       (quantityOf (-1) 0) false runtimeapi.zeroResources [])
    (fun r' => runtimeapi.CpuMaximum r' = 1).
Proof.
  apply (X16_default_negative_limit_gets_minimum (sampleEnv 4 plainSc)
           (quantityOf 0 0) (quantityOf (-1) 0) runtimeapi.zeroResources []).
  - reflexivity.
  - cbn. unfold Int64.min_signed. lia.
  - reflexivity.
Defined.

(** A limit that is not zero and whose [MilliValue] is 0 is a limit all the
    same: under Default isolation with a request of 500 millicores it gets
    the minimum [CpuMaximum], which the positive shares then clear, with
    the warning of line 103. *)
Lemma wrapped_limit_is_a_limit :
  generateWindowsContainerConfig (sampleEnv 4 plainSc)
    (v1.mkContainer EmptyString
       (v1.mkResourceRequirements
          (v1.mkResourceList (wrappedQuantity 0) (quantityOf 0 0))
          (v1.mkResourceList (quantityOf 500 0) (quantityOf 0 0))))
    defaultPod None EmptyString []
  = (Return
       (runtimeapi.mkConfig (runtimeapi.mkResources 500 0 0 0)
          runtimeapi.zeroSecurityContext), [CPUSharesOverCPUMaximum]).
Proof. vm_compute. reflexivity. Qed.
